(** * Atmospheric LNG gasifier calculator: model and checked properties

    A shallow embedding of [calculadora_gasificador.py].

    Numbers.  Python's [int] and [float] values are idealised as real
    numbers: there is no rounding, no overflow and no NaN in this model, so
    every statement below is about the formulas the program evaluates, not
    about their binary64 round-off.  What the model does keep of Python's
    numeric tower is what changes control flow or the kind of the result:
      - true division by zero raises [ZeroDivisionError];
      - a negative float raised to a non-integral float power is a
        [complex] number, and arithmetic carries on in the complex plane;
      - [round] refuses a [complex] argument with [TypeError]. *)

From Stdlib Require Import Reals Lra Lia ZArith String Bool.

Open Scope R_scope.

(** ** Exceptions and results *)

Inductive pyerr : Type :=
| ZeroDivisionError
| TypeError.

Inductive result (A : Type) : Type :=
| Ok (a : A)
| Raise (e : pyerr).

Arguments Ok {A} a.
Arguments Raise {A} e.

Definition bind {A B : Type} (r : result A) (k : A -> result B) : result B :=
  match r with
  | Ok a => k a
  | Raise e => Raise e
  end.

Notation "x <- e ;; k" := (bind e (fun x => k))
  (at level 61, e at next level, right associativity).

(** ** Python numbers: real floats and complex numbers *)

Module PyNum.

Inductive pynum : Type :=
| PyFloat (x : R)
| PyComplex (re im : R).

Definition re_part (a : pynum) : R :=
  match a with PyFloat x => x | PyComplex re _ => re end.

Definition im_part (a : pynum) : R :=
  match a with PyFloat _ => 0 | PyComplex _ im => im end.

(** [a == 0], which is what makes a division raise. *)
Definition is_zero (a : pynum) : Prop := re_part a = 0 /\ im_part a = 0.

Definition is_zero_dec (a : pynum) : {is_zero a} + {~ is_zero a}.
Proof.
  unfold is_zero.
  destruct (Req_dec_T (re_part a) 0); destruct (Req_dec_T (im_part a) 0);
    tauto.
Defined.

(** [a + b] *)
Definition padd (a b : pynum) : pynum :=
  match a, b with
  | PyFloat x, PyFloat y => PyFloat (x + y)
  | _, _ => PyComplex (re_part a + re_part b) (im_part a + im_part b)
  end.

(** [a * b] *)
Definition pmul (a b : pynum) : pynum :=
  match a, b with
  | PyFloat x, PyFloat y => PyFloat (x * y)
  | _, _ => PyComplex (re_part a * re_part b - im_part a * im_part b)
                      (re_part a * im_part b + im_part a * re_part b)
  end.

(** [a / b]: true division, [ZeroDivisionError] on a zero divisor. *)
Definition pdiv (a b : pynum) : result pynum :=
  if is_zero_dec b then Raise ZeroDivisionError
  else
    match a, b with
    | PyFloat x, PyFloat y => Ok (PyFloat (x / y))
    | _, _ =>
        let d := re_part b * re_part b + im_part b * im_part b in
        Ok (PyComplex ((re_part a * re_part b + im_part a * im_part b) / d)
                      ((im_part a * re_part b - re_part a * im_part b) / d))
    end.

(** [a ** n] for an [int] literal [n >= 0]: repeated multiplication, for a
    float and for a complex base alike. *)
Fixpoint pow_int (a : pynum) (n : nat) : pynum :=
  match n with
  | O => match a with PyFloat _ => PyFloat 1 | PyComplex _ _ => PyComplex 1 0 end
  | S O => a
  | S k => pmul a (pow_int a k)
  end.

Definition is_integral (y : R) : bool :=
  if Req_dec_T (frac_part y) 0 then true else false.

(** [x ** y] for floats [x] and [y].  A zero exponent gives 1; a zero base
    raises on a negative exponent; a negative base with a non-integral
    exponent leaves the reals: the result is the complex number of modulus
    [|x| ** y] and argument [pi * y]. *)
Definition float_pow (x y : R) : result pynum :=
  if Req_dec_T y 0 then Ok (PyFloat 1)
  else if Req_dec_T x 0 then
    if Rlt_dec y 0 then Raise ZeroDivisionError else Ok (PyFloat 0)
  else if Rlt_dec x 0 then
    if is_integral y then Ok (PyFloat (powerRZ x (Int_part y)))
    else Ok (PyComplex (Rpower (- x) y * cos (PI * y))
                       (Rpower (- x) y * sin (PI * y)))
  else Ok (PyFloat (Rpower x y)).

(** The angle of the point [(x, y)], as [math.atan2 y x]. *)
Definition atan2 (y x : R) : R :=
  if Rlt_dec 0 x then atan (y / x)
  else if Rlt_dec x 0 then
    if Rle_dec 0 y then atan (y / x) + PI else atan (y / x) - PI
  else if Rlt_dec 0 y then PI / 2
  else if Rlt_dec y 0 then - (PI / 2)
  else 0.

(** [z ** y] for a complex [z] and a float [y], in polar form. *)
Definition complex_pow (re im y : R) : result pynum :=
  if Req_dec_T y 0 then Ok (PyComplex 1 0)
  else if is_zero_dec (PyComplex re im) then
    if Rlt_dec y 0 then Raise ZeroDivisionError else Ok (PyComplex 0 0)
  else
    let len := Rpower (sqrt (re * re + im * im)) y in
    let phase := atan2 im re * y in
    Ok (PyComplex (len * cos phase) (len * sin phase)).

(** [a ** y] for a float exponent [y]. *)
Definition ppow (a : pynum) (y : R) : result pynum :=
  match a with
  | PyFloat x => float_pow x y
  | PyComplex re im => complex_pow re im y
  end.

(** [round(x)]: the nearest integer, ties to the even one. *)
Definition round_half_even (x : R) : Z :=
  let f := Int_part x in
  if Rlt_dec (frac_part x) (1 / 2) then f
  else if Rlt_dec (1 / 2) (frac_part x) then (f + 1)%Z
  else if Z.even f then f else (f + 1)%Z.

(** [round(a)] *)
Definition py_round (a : pynum) : result Z :=
  match a with
  | PyFloat x => Ok (round_half_even x)
  | PyComplex _ _ => Raise TypeError
  end.

(** [round(a, ndigits)] *)
Definition py_round_digits (a : pynum) (ndigits : nat) : result R :=
  match a with
  | PyFloat x => Ok (IZR (round_half_even (x * 10 ^ ndigits)) / 10 ^ ndigits)
  | PyComplex _ _ => Raise TypeError
  end.

End PyNum.

Import PyNum.

(** ** 1. Simplified physical properties *)

Definition RHO_LNG : R := 430.
Definition CP_LNG : R := 2.5e3.
Definition RHO_GNG : R := 1.0.
Definition CP_GNG : R := 2.1e3.
Definition LATENT : R := 510e3.
Definition MU_AIR : R := 1.8e-5.
Definition K_AIR : R := 0.026.
Definition PR_AIR : R := 0.71.

(** ** 2. Design classes *)

Record FinTubeGeometry : Type := mkFinTubeGeometry {
  tube_od_mm : R;
  fin_height_mm : R;
  fins_per_tube : Z;
  fin_efficiency : R
}.

(** [FinTubeGeometry.area_per_meter] *)
Definition area_per_meter (self : FinTubeGeometry) : R :=
  let A_primary := PI * (tube_od_mm self / 1000) in
  let A_fins := IZR (fins_per_tube self) *
                (2 * PI * (tube_od_mm self / 1000) * fin_height_mm self / 1000) in
  A_primary + fin_efficiency self * A_fins.

Record AmbientConditions : Type := mkAmbientConditions {
  T_air : R;
  v_wind : R
}.

(** [AmbientConditions.h_coefficient] *)
Definition h_coefficient (self : AmbientConditions) (D_h : R) : result pynum :=
  let beta := 1 / 273.15 in
  let Gr := 9.81 * beta * (T_air self + 273.15 - (-160 + 273.15)) * D_h ^ 3
            / MU_AIR ^ 2 in
  let Ra := Gr * PR_AIR in
  ra6 <- float_pow Ra (1 / 6) ;;
  pr916 <- float_pow (0.492 / PR_AIR) (9 / 16) ;;
  den <- ppow (padd (PyFloat 1) pr916) (8 / 27) ;;
  quo <- pdiv (pmul (PyFloat 0.387) ra6) den ;;
  let Nu_nat := pow_int (padd (PyFloat 0.825) quo) 2 in
  let Re := RHO_GNG * v_wind self * D_h / MU_AIR in
  let '(C, m) := if Rlt_dec Re 1e5 then (0.3, 0.62) else (0.027, 0.805) in
  rem <- float_pow Re m ;;
  pr037 <- float_pow PR_AIR 0.37 ;;
  let Nu_for := pmul (pmul (PyFloat C) rem) pr037 in
  let n := 3%nat in
  Nu_mix <- ppow (padd (pow_int Nu_nat n) (pow_int Nu_for n)) (1 / INR n) ;;
  pdiv (pmul Nu_mix (PyFloat K_AIR)) (PyFloat D_h).

Record ModuleConfig : Type := mkModuleConfig {
  tubes_x : Z;
  tubes_y : Z;
  spacing_x_mm : R;
  spacing_y_mm : R
}.

(** [ModuleConfig.footprint_mm] *)
Definition footprint_mm (self : ModuleConfig) (tube_d_mm : R) : R * R :=
  let fx := IZR (tubes_x self - 1) * spacing_x_mm self + tube_d_mm in
  let fy := IZR (tubes_y self - 1) * spacing_y_mm self + tube_d_mm in
  (fx, fy).

(** [ModuleConfig.n_tubes] *)
Definition n_tubes (self : ModuleConfig) : Z := (tubes_x self * tubes_y self)%Z.

Record Gasifier : Type := mkGasifier {
  geom : FinTubeGeometry;
  module : ModuleConfig;
  tube_length_mm : R;
  ambient : AmbientConditions
}.

(** [Gasifier.thermal_time_constant], in hours *)
Definition thermal_time_constant (self : Gasifier) : result pynum :=
  let mass_Al := 2700 * (area_per_meter (geom self) * 0.002)
                 * (tube_length_mm self / 1000) * IZR (n_tubes (module self)) in
  let Cth := mass_Al * 900 in
  h <- h_coefficient (ambient self)
         ((tube_od_mm (geom self) + 2 * fin_height_mm (geom self)) / 1000) ;;
  let hA := pmul (pmul (pmul h (PyFloat (area_per_meter (geom self))))
                       (PyFloat (tube_length_mm self / 1000)))
                 (PyFloat (IZR (n_tubes (module self)))) in
  q <- pdiv (PyFloat Cth) hA ;;
  pdiv q (PyFloat 3600).

(** [Gasifier.capacity], in Nm3/h.  Any [mode] other than ["cold-start"] is
    the steady one. *)
Definition capacity (self : Gasifier) (mode : string) : result pynum :=
  let D_h := (tube_od_mm (geom self) + 2 * fin_height_mm (geom self)) / 1000 in
  h <- h_coefficient (ambient self) D_h ;;
  let U := h in
  let A_per_tube := area_per_meter (geom self) * (tube_length_mm self / 1000) in
  let Qtot := pmul (pmul U (PyFloat A_per_tube))
                   (PyFloat (T_air (ambient self) - (-160))) in
  m_dot <- pdiv Qtot (PyFloat (LATENT + CP_LNG * ((-160) - (-160)))) ;;
  let nTubes := n_tubes (module self) in
  flow_total <- pdiv (pmul (pmul m_dot (PyFloat (IZR nTubes))) (PyFloat 3600))
                     (PyFloat 0.693) ;;
  if String.eqb mode "cold-start" then
    tau_s <- thermal_time_constant self ;;
    Ok (pmul flow_total (PyFloat 0.5))
  else Ok flow_total.

(** The dictionary [summary] builds has fixed keys: a record. *)
Record FootprintReport : Type := mkFootprintReport {
  fp_x : Z;
  fp_y : Z;
  fp_z : R
}.

Record Summary : Type := mkSummary {
  s_n_tubes : Z;
  s_area_total_m2 : R;
  s_capacity_Nm3_h : Z;
  s_footprint_mm : FootprintReport;
  s_tau_h : R
}.

(** [Gasifier.summary] *)
Definition summary (self : Gasifier) : result Summary :=
  let '(fx, fy) := footprint_mm (module self)
                     (tube_od_mm (geom self) + 2 * fin_height_mm (geom self)) in
  area <- py_round_digits
            (PyFloat (area_per_meter (geom self) * (tube_length_mm self / 1000)
                      * IZR (n_tubes (module self)))) 1 ;;
  c <- capacity self "steady" ;;
  cap <- py_round c ;;
  rx <- py_round (PyFloat fx) ;;
  ry <- py_round (PyFloat fy) ;;
  tau <- thermal_time_constant self ;;
  tau2 <- py_round_digits tau 2 ;;
  Ok (mkSummary (n_tubes (module self)) area cap
                (mkFootprintReport rx ry (tube_length_mm self)) tau2).

(** ** The formulas of the specification, over the reals *)

(** [x ** y] for a base [x >= 0] and an exponent [y > 0]. *)
Definition rpow (x y : R) : R :=
  if Req_dec_T x 0 then 0 else Rpower x y.

Definition grashof (amb : AmbientConditions) (D_h : R) : R :=
  9.81 * (1 / 273.15) * (T_air amb - (-160)) * (D_h ^ 3 / MU_AIR ^ 2).

Definition rayleigh (amb : AmbientConditions) (D_h : R) : R :=
  grashof amb D_h * PR_AIR.

Definition reynolds (amb : AmbientConditions) (D_h : R) : R :=
  RHO_GNG * v_wind amb * D_h / MU_AIR.

(** Churchill and Chu, vertical plate. *)
Definition churchill_chu (Ra : R) : R :=
  (0.825 + 0.387 * rpow Ra (1 / 6)
           / Rpower (1 + Rpower (0.492 / PR_AIR) (9 / 16)) (8 / 27)) ^ 2.

Definition zukauskas_C (Re : R) : R := if Rlt_dec Re 1e5 then 0.3 else 0.027.
Definition zukauskas_m (Re : R) : R := if Rlt_dec Re 1e5 then 0.62 else 0.805.

(** Zukauskas, cylinder in cross flow. *)
Definition zukauskas (Re : R) : R :=
  zukauskas_C Re * rpow Re (zukauskas_m Re) * Rpower PR_AIR 0.37.

(** The [n = 3] power mean of the two Nusselt numbers. *)
Definition power_mean3 (a b : R) : R := rpow (a ^ 3 + b ^ 3) (1 / 3).

Definition Nu_natural (amb : AmbientConditions) (D_h : R) : R :=
  churchill_chu (rayleigh amb D_h).

Definition Nu_forced (amb : AmbientConditions) (D_h : R) : R :=
  zukauskas (reynolds amb D_h).

Definition Nu_mixed (amb : AmbientConditions) (D_h : R) : R :=
  power_mean3 (Nu_natural amb D_h) (Nu_forced amb D_h).

Definition h_formula (amb : AmbientConditions) (D_h : R) : R :=
  Nu_mixed amb D_h * K_AIR / D_h.

(** The constant denominator of the Churchill-Chu correlation. *)
Definition cc_den : R := Rpower (1 + Rpower (0.492 / PR_AIR) (9 / 16)) (8 / 27).

(** *** The three stages of [h_coefficient], in Python arithmetic *)

(** The natural-convection Nusselt number at a Rayleigh number. *)
Definition churchill_chu_py (Ra : R) : result pynum :=
  ra6 <- float_pow Ra (1 / 6) ;;
  pr916 <- float_pow (0.492 / PR_AIR) (9 / 16) ;;
  den <- ppow (padd (PyFloat 1) pr916) (8 / 27) ;;
  quo <- pdiv (pmul (PyFloat 0.387) ra6) den ;;
  Ok (pow_int (padd (PyFloat 0.825) quo) 2).

(** The forced-convection Nusselt number at a Reynolds number. *)
Definition zukauskas_py (Re : R) : result pynum :=
  rem <- float_pow Re (zukauskas_m Re) ;;
  pr037 <- float_pow PR_AIR 0.37 ;;
  Ok (pmul (pmul (PyFloat (zukauskas_C Re)) rem) pr037).

(** The blend of the two. *)
Definition power_mean3_py (a b : pynum) : result pynum :=
  ppow (padd (pow_int a 3) (pow_int b 3)) (1 / 3).

Definition h_formula_py (amb : AmbientConditions) (D_h : R) : result pynum :=
  Nu_nat <- churchill_chu_py (rayleigh amb D_h) ;;
  Nu_for <- zukauskas_py (reynolds amb D_h) ;;
  Nu_mix <- power_mean3_py Nu_nat Nu_for ;;
  pdiv (pmul Nu_mix (PyFloat K_AIR)) (PyFloat D_h).

(** ** Valid inputs: the invariants of the data model *)

Definition valid_geometry (g : FinTubeGeometry) : Prop :=
  0 < tube_od_mm g /\ 0 <= fin_height_mm g /\ (0 <= fins_per_tube g)%Z /\
  0 < fin_efficiency g <= 1.

Definition valid_ambient (a : AmbientConditions) : Prop := 0 <= v_wind a.

Definition valid_module (m : ModuleConfig) : Prop :=
  (1 <= tubes_x m)%Z /\ (1 <= tubes_y m)%Z /\
  0 < spacing_x_mm m /\ 0 < spacing_y_mm m.

Definition valid_gasifier (g : Gasifier) : Prop :=
  valid_geometry (geom g) /\ valid_module (module g) /\
  valid_ambient (ambient g) /\ 0 < tube_length_mm g.

(** The air is not colder than the liquid at -160 C, the reference the
    Grashof number is built on; every temperature the front end offers
    (-20 to 40 C) is. *)
Definition above_reference (a : AmbientConditions) : Prop := -160 <= T_air a.

(** The finned outer diameter, in metres, as [capacity] and
    [thermal_time_constant] compute it. *)
Definition finned_diameter_m (g : FinTubeGeometry) : R :=
  (tube_od_mm g + 2 * fin_height_mm g) / 1000.

(** The defaults of the dataclasses and of the front end: scenario A of the
    specification. *)
Definition default_geom : FinTubeGeometry := mkFinTubeGeometry 28 200 12 0.85.
Definition default_ambient : AmbientConditions := mkAmbientConditions 15 0.5.
Definition default_module : ModuleConfig := mkModuleConfig 9 8 215 300.
Definition default_gasifier : Gasifier :=
  mkGasifier default_geom default_module 4600 default_ambient.

(** ** The area model, as the specification words it *)

(** The circumference of the bare tube, times 1 m. *)
Definition bare_circumference (g : FinTubeGeometry) : R :=
  PI * (tube_od_mm g / 1000).

(** The circumference at the fin radius: tube radius plus fin height. *)
Definition fin_tip_circumference (g : FinTubeGeometry) : R :=
  2 * PI * ((tube_od_mm g / 2 + fin_height_mm g) / 1000).

(** The area the specification words describe: every fin contributes
    [2 * circumference at the fin radius * fin height]. *)
Definition area_per_meter_spec (g : FinTubeGeometry) : R :=
  bare_circumference g +
  fin_efficiency g *
  (IZR (fins_per_tube g) *
   (2 * fin_tip_circumference g * (fin_height_mm g / 1000))).

(** Setting one field of a geometry. *)
Definition with_fin_height (g : FinTubeGeometry) (h : R) : FinTubeGeometry :=
  mkFinTubeGeometry (tube_od_mm g) h (fins_per_tube g) (fin_efficiency g).

Definition with_fins (g : FinTubeGeometry) (n : Z) : FinTubeGeometry :=
  mkFinTubeGeometry (tube_od_mm g) (fin_height_mm g) n (fin_efficiency g).

(** ** The capacity and the time constant, as the specification words them *)

(** Total flow in the steady mode, steps 1 to 6 of the contract. *)
Definition capacity_steady_formula (g : Gasifier) : R :=
  let D_h := finned_diameter_m (geom g) in
  let U := h_formula (ambient g) D_h in
  let A_per_tube := area_per_meter (geom g) * (tube_length_mm g / 1000) in
  let Q := U * A_per_tube * (T_air (ambient g) - (-160)) in
  let m_dot := Q / LATENT in
  m_dot * IZR (n_tubes (module g)) * 3600 / 0.693.

(** Exposed area of the whole bank. *)
Definition total_exposed_area (g : Gasifier) : R :=
  area_per_meter (geom g) * (tube_length_mm g / 1000) * IZR (n_tubes (module g)).

(** Exposed area of a tube x 2 mm wall x 2700 kg/m3 x tube count. *)
Definition aluminium_mass (g : Gasifier) : R :=
  area_per_meter (geom g) * (tube_length_mm g / 1000) * 0.002 * 2700
  * IZR (n_tubes (module g)).

Definition thermal_capacitance (g : Gasifier) : R := aluminium_mass g * 900.

(** Cth / (h x total exposed area), in hours. *)
Definition tau_formula (g : Gasifier) : R :=
  thermal_capacitance g
  / (h_formula (ambient g) (finned_diameter_m (geom g)) * total_exposed_area g)
  / 3600.

(** ** The natural Nusselt number below the reference temperature *)

(** With a negative Rayleigh number the sixth root is complex, of argument
    [pi / 6]; these are the real and the imaginary part of
    [0.825 + 0.387 * Ra ** (1/6) / den], whose square the correlation is. *)
Definition cc_re (Ra : R) : R :=
  0.825 + 0.387 * (Rpower (- Ra) (1 / 6) * cos (PI * (1 / 6))) / cc_den.

Definition cc_im (Ra : R) : R :=
  0.387 * (Rpower (- Ra) (1 / 6) * sin (PI * (1 / 6))) / cc_den.

(** ** The coefficient as a function of the wind speed *)

Definition with_wind (amb : AmbientConditions) (v : R) : AmbientConditions :=
  mkAmbientConditions (T_air amb) v.

(** The wind speed at which the Reynolds number of [h_coefficient] is 1e5. *)
Definition threshold_wind (D_h : R) : R := 1e5 * MU_AIR / (RHO_GNG * D_h).

(** The number [h_coefficient] returns, read as a real: the real part of
    the value, and 0 when it raises. *)
Definition h_value (amb : AmbientConditions) (D_h : R) : R :=
  match h_coefficient amb D_h with
  | Ok a => re_part a
  | Raise _ => 0
  end.

(** The forced Nusselt number a Reynolds number of 0.95e5 gives. *)
Definition zukauskas_below : R :=
  0.3 * Rpower 0.95e5 0.62 * Rpower PR_AIR 0.37.

(** A second bank with the same finned diameter in the same air: other fin
    count and efficiency, other layout, other length. *)
Definition example_gasifier : Gasifier :=
  mkGasifier (mkFinTubeGeometry 28 200 16 0.9) (mkModuleConfig 8 18 215 215)
             10600 default_ambient.

(** ** Further objects of the properties *)

Definition with_T_air (amb : AmbientConditions) (T : R) : AmbientConditions :=
  mkAmbientConditions T (v_wind amb).

(** The coefficient of natural convection alone. *)
Definition h_natural (amb : AmbientConditions) (D_h : R) : R :=
  Nu_natural amb D_h * K_AIR / D_h.

(** The same bank in other air. *)
Definition with_ambient (g : Gasifier) (a : AmbientConditions) : Gasifier :=
  mkGasifier (geom g) (module g) (tube_length_mm g) a.

(** ** The front end, [app_streamlit.py] *)

(** What the widgets of the sidebar hand to the script: integers from the
    integer widgets, floats from the two float sliders, and the label of
    the select box. *)
Record AppInputs : Type := mkAppInputs {
  in_tube_od : Z;
  in_fin_height : Z;
  in_fins_per_tube : Z;
  in_fin_eff : R;
  in_tubes_x : Z;
  in_tubes_y : Z;
  in_spacing_x : Z;
  in_spacing_y : Z;
  in_n_modules : Z;
  in_connection : string;
  in_tube_length : Z;
  in_T_air : Z;
  in_wind : R
}.

(** The ranges the widgets enforce. *)
Definition widget_ranges (i : AppInputs) : Prop :=
  (20 <= in_tube_od i <= 60)%Z /\
  (50 <= in_fin_height i <= 500)%Z /\
  (6 <= in_fins_per_tube i <= 40)%Z /\
  0.3 <= in_fin_eff i <= 1.0 /\
  (1 <= in_tubes_x i <= 30)%Z /\
  (1 <= in_tubes_y i <= 30)%Z /\
  (100 <= in_spacing_x i <= 400)%Z /\
  (100 <= in_spacing_y i <= 400)%Z /\
  (1 <= in_n_modules i <= 4)%Z /\
  (in_connection i = "Paralelo"%string \/ in_connection i = "Serie"%string) /\
  (1000 <= in_tube_length i <= 15000)%Z /\
  (-20 <= in_T_air i <= 40)%Z /\
  0.0 <= in_wind i <= 5.0.

Definition app_geom (i : AppInputs) : FinTubeGeometry :=
  mkFinTubeGeometry (IZR (in_tube_od i)) (IZR (in_fin_height i))
                    (in_fins_per_tube i) (in_fin_eff i).

Definition app_mod (i : AppInputs) : ModuleConfig :=
  mkModuleConfig (in_tubes_x i) (in_tubes_y i)
                 (IZR (in_spacing_x i)) (IZR (in_spacing_y i)).

Definition app_amb (i : AppInputs) : AmbientConditions :=
  mkAmbientConditions (IZR (in_T_air i)) (in_wind i).

Definition app_single (i : AppInputs) : Gasifier :=
  mkGasifier (app_geom i) (app_mod i) (IZR (in_tube_length i)) (app_amb i).

(** The one row of the results table. *)
Record AppRow : Type := mkAppRow {
  row_modulos : Z;
  row_conexion : string;
  row_tubos_totales : Z;
  row_capacidad : Z;
  row_area_total : R;
  row_tau : R
}.

(** The row and the three dimensions of the footprint tab. *)
Record AppReport : Type := mkAppReport {
  app_row : AppRow;
  app_x : Z;
  app_y : Z;
  app_z : Z
}.

(** The calculation and output sections of the script, in the order the
    script evaluates them. *)
Definition app (i : AppInputs) : result AppReport :=
  let geom := app_geom i in
  let mod_cfg := app_mod i in
  let single := app_single i in
  let parallel := String.eqb (in_connection i) "Paralelo" in
  cap_single <- capacity single "steady" ;;
  let capacity_total :=
    if parallel then pmul cap_single (PyFloat (IZR (in_n_modules i)))
    else cap_single in
  cap <- py_round capacity_total ;;
  s_area <- summary single ;;
  area <- py_round_digits
            (PyFloat (if parallel
                      then s_area_total_m2 s_area * IZR (in_n_modules i)
                      else s_area_total_m2 s_area)) 1 ;;
  s_tau <- summary single ;;
  let '(fx, fy) := footprint_mm mod_cfg (tube_od_mm geom + 2 * fin_height_mm geom) in
  rx <- py_round (PyFloat fx) ;;
  ry <- py_round (PyFloat fy) ;;
  Ok (mkAppReport
        (mkAppRow (in_n_modules i) (in_connection i)
                  (n_tubes mod_cfg * in_n_modules i) cap area (s_tau_h s_tau))
        rx ry (in_tube_length i)).

Definition with_connection (i : AppInputs) (c : string) : AppInputs :=
  mkAppInputs (in_tube_od i) (in_fin_height i) (in_fins_per_tube i)
              (in_fin_eff i) (in_tubes_x i) (in_tubes_y i) (in_spacing_x i)
              (in_spacing_y i) (in_n_modules i) c (in_tube_length i)
              (in_T_air i) (in_wind i).

Definition with_n_modules (i : AppInputs) (n : Z) : AppInputs :=
  mkAppInputs (in_tube_od i) (in_fin_height i) (in_fins_per_tube i)
              (in_fin_eff i) (in_tubes_x i) (in_tubes_y i) (in_spacing_x i)
              (in_spacing_y i) n (in_connection i) (in_tube_length i)
              (in_T_air i) (in_wind i).

(** The inputs the widgets show when the page opens. *)
Definition default_inputs : AppInputs :=
  mkAppInputs 28 200 12 0.85 9 8 215 300 1 "Paralelo" 4600 15 0.5.

(** Two runs of the script show the same performance: both fail with the
    same exception, or both report the same capacity, area, time constant
    and footprint. *)
Definition same_performance (r1 r2 : result AppReport) : Prop :=
  match r1, r2 with
  | Ok a, Ok b =>
      row_capacidad (app_row a) = row_capacidad (app_row b) /\
      row_area_total (app_row a) = row_area_total (app_row b) /\
      row_tau (app_row a) = row_tau (app_row b) /\
      app_x a = app_x b /\ app_y a = app_y b /\ app_z a = app_z b
  | Raise e1, Raise e2 => e1 = e2
  | _, _ => False
  end.

(** The same bank on other tubes. *)
Definition with_geom (g : Gasifier) (geo : FinTubeGeometry) : Gasifier :=
  mkGasifier geo (module g) (tube_length_mm g) (ambient g).

(** * Lemmas *)

(** ** Facts about the arithmetic *)

Lemma float_pow_pos (x y : R) :
  0 < x -> y <> 0 -> float_pow x y = Ok (PyFloat (Rpower x y)).
Proof.
  intros Hx Hy. unfold float_pow.
  destruct (Req_dec_T y 0) as [E|_]; [contradiction|].
  destruct (Req_dec_T x 0) as [E|_]; [lra|].
  destruct (Rlt_dec x 0) as [L|_]; [lra|reflexivity].
Qed.

Lemma float_pow_nonneg (x y : R) :
  0 <= x -> 0 < y -> float_pow x y = Ok (PyFloat (rpow x y)).
Proof.
  intros Hx Hy. unfold float_pow, rpow.
  destruct (Req_dec_T y 0) as [E|_]; [lra|].
  destruct (Req_dec_T x 0) as [E|N].
  - destruct (Rlt_dec y 0) as [L|_]; [lra|reflexivity].
  - destruct (Rlt_dec x 0) as [L|_]; [lra|reflexivity].
Qed.

Lemma rpow_pos (x y : R) : 0 < x -> rpow x y = Rpower x y.
Proof.
  intros Hx. unfold rpow. destruct (Req_dec_T x 0); [lra|reflexivity].
Qed.

Lemma Rpower_pos (x y : R) : 0 < Rpower x y.
Proof. unfold Rpower. apply exp_pos. Qed.

Lemma rpow_nonneg (x y : R) : 0 <= rpow x y.
Proof.
  unfold rpow. destruct (Req_dec_T x 0); [lra|].
  left. apply Rpower_pos.
Qed.

Lemma rpow_gt0 (x y : R) : 0 < x -> 0 < rpow x y.
Proof. intros Hx. rewrite rpow_pos by assumption. apply Rpower_pos. Qed.

Lemma pdiv_float (x y : R) :
  y <> 0 -> pdiv (PyFloat x) (PyFloat y) = Ok (PyFloat (x / y)).
Proof.
  intros Hy. unfold pdiv.
  destruct (is_zero_dec (PyFloat y)) as [[E _]|_]; [simpl in E; contradiction|].
  reflexivity.
Qed.

Lemma pdiv_zero (a : pynum) : pdiv a (PyFloat 0) = Raise ZeroDivisionError.
Proof.
  unfold pdiv.
  destruct (is_zero_dec (PyFloat 0)) as [_|N]; [reflexivity|].
  exfalso. apply N. split; reflexivity.
Qed.

Lemma cc_den_pos : 0 < cc_den.
Proof. apply Rpower_pos. Qed.

Lemma churchill_chu_ge (Ra : R) : 0.825 ^ 2 <= churchill_chu Ra.
Proof.
  unfold churchill_chu. fold cc_den.
  assert (H : 0 <= 0.387 * rpow Ra (1 / 6) / cc_den).
  { apply Rmult_le_pos.
    - apply Rmult_le_pos; [lra|apply rpow_nonneg].
    - left. apply Rinv_0_lt_compat, cc_den_pos. }
  nra.
Qed.

Lemma churchill_chu_pos (Ra : R) : 0 < churchill_chu Ra.
Proof. pose proof (churchill_chu_ge Ra). lra. Qed.

Lemma zukauskas_C_pos (Re : R) : 0 < zukauskas_C Re.
Proof. unfold zukauskas_C. destruct (Rlt_dec Re 1e5); lra. Qed.

Lemma zukauskas_m_pos (Re : R) : 0 < zukauskas_m Re.
Proof. unfold zukauskas_m. destruct (Rlt_dec Re 1e5); lra. Qed.

Lemma zukauskas_nonneg (Re : R) : 0 <= zukauskas Re.
Proof.
  unfold zukauskas.
  apply Rmult_le_pos; [apply Rmult_le_pos|].
  - left. apply zukauskas_C_pos.
  - apply rpow_nonneg.
  - left. apply Rpower_pos.
Qed.

Lemma cube_sum_pos (a b : R) : 0 < a -> 0 <= b -> 0 < a ^ 3 + b ^ 3.
Proof.
  intros Ha Hb.
  assert (0 < a ^ 3) by (apply pow_lt; assumption).
  assert (0 <= b ^ 3) by (apply pow_le; assumption).
  lra.
Qed.

Lemma power_mean3_pos (a b : R) : 0 < a -> 0 <= b -> 0 < power_mean3 a b.
Proof.
  intros Ha Hb. unfold power_mean3. apply rpow_gt0, cube_sum_pos; assumption.
Qed.

Lemma Nu_mixed_pos (amb : AmbientConditions) (D_h : R) : 0 < Nu_mixed amb D_h.
Proof.
  unfold Nu_mixed. apply power_mean3_pos.
  - apply churchill_chu_pos.
  - apply zukauskas_nonneg.
Qed.

Lemma h_formula_pos (amb : AmbientConditions) (D_h : R) :
  0 < D_h -> 0 < h_formula amb D_h.
Proof.
  intros HD. unfold h_formula.
  apply Rdiv_lt_0_compat; [|assumption].
  apply Rmult_lt_0_compat; [apply Nu_mixed_pos|unfold K_AIR; lra].
Qed.

Lemma grashof_code (amb : AmbientConditions) (D_h : R) :
  9.81 * (1 / 273.15) * (T_air amb + 273.15 - (-160 + 273.15)) * D_h ^ 3
  / MU_AIR ^ 2 = grashof amb D_h.
Proof. unfold grashof, Rdiv. ring. Qed.

Lemma rayleigh_nonneg (amb : AmbientConditions) (D_h : R) :
  -160 <= T_air amb -> 0 <= D_h -> 0 <= rayleigh amb D_h.
Proof.
  intros HT HD. unfold rayleigh, grashof, PR_AIR, MU_AIR.
  assert (0 <= D_h ^ 3) by (apply pow_le; assumption).
  apply Rmult_le_pos; [|lra].
  apply Rmult_le_pos.
  - apply Rmult_le_pos; lra.
  - apply Rmult_le_pos; [assumption|]. lra.
Qed.

Lemma reynolds_nonneg (amb : AmbientConditions) (D_h : R) :
  0 <= v_wind amb -> 0 <= D_h -> 0 <= reynolds amb D_h.
Proof.
  intros Hv HD. unfold reynolds, RHO_GNG, MU_AIR.
  apply Rmult_le_pos; [|lra].
  apply Rmult_le_pos; [lra|assumption].
Qed.

(** ** The stages of [h_coefficient] *)

Lemma bind_assoc {A B C : Type} (r : result A) (f : A -> result B)
    (g : B -> result C) :
  bind (bind r f) g = bind r (fun a => bind (f a) g).
Proof. destruct r; reflexivity. Qed.

Lemma bind_ext {A B : Type} (r : result A) (f g : A -> result B) :
  (forall a, f a = g a) -> bind r f = bind r g.
Proof. intros H. destruct r; [apply H|reflexivity]. Qed.

Lemma INR_3 : INR 3 = 3.
Proof. simpl. lra. Qed.

Lemma h_coefficient_stages (amb : AmbientConditions) (D_h : R) :
  h_coefficient amb D_h = h_formula_py amb D_h.
Proof.
  unfold h_coefficient, h_formula_py, churchill_chu_py, zukauskas_py,
    power_mean3_py, zukauskas_m, zukauskas_C.
  rewrite grashof_code. fold (rayleigh amb D_h). fold (reynolds amb D_h).
  rewrite INR_3.
  rewrite !bind_assoc. apply bind_ext; intros ra6.
  rewrite !bind_assoc. apply bind_ext; intros pr916.
  rewrite !bind_assoc. apply bind_ext; intros den.
  rewrite !bind_assoc. apply bind_ext; intros quo.
  cbn [bind].
  destruct (Rlt_dec (reynolds amb D_h) 1e5);
    rewrite !bind_assoc; apply bind_ext; intros rem;
    rewrite !bind_assoc; apply bind_ext; intros pr037; reflexivity.
Qed.

Lemma padd_float (x y : R) : padd (PyFloat x) (PyFloat y) = PyFloat (x + y).
Proof. reflexivity. Qed.

Lemma pmul_float (x y : R) : pmul (PyFloat x) (PyFloat y) = PyFloat (x * y).
Proof. reflexivity. Qed.

Lemma pow_int_float (x : R) (n : nat) : pow_int (PyFloat x) n = PyFloat (x ^ n).
Proof.
  induction n as [|n IH]; [reflexivity|].
  destruct n as [|n].
  - simpl. f_equal. ring.
  - change (pow_int (PyFloat x) (S (S n)))
      with (pmul (PyFloat x) (pow_int (PyFloat x) (S n))).
    rewrite IH, pmul_float. reflexivity.
Qed.

Lemma churchill_chu_py_real (Ra : R) :
  0 <= Ra -> churchill_chu_py Ra = Ok (PyFloat (churchill_chu Ra)).
Proof.
  intros HRa. unfold churchill_chu_py, churchill_chu.
  rewrite (float_pow_nonneg Ra) by lra. cbn [bind].
  rewrite (float_pow_pos (0.492 / PR_AIR)) by (unfold PR_AIR; lra). cbn [bind].
  rewrite padd_float. cbn [ppow].
  rewrite float_pow_pos
    by (pose proof (Rpower_pos (0.492 / PR_AIR) (9 / 16)); lra).
  cbn [bind]. fold cc_den. rewrite pmul_float.
  rewrite pdiv_float by (pose proof cc_den_pos; lra). cbn [bind].
  rewrite padd_float, pow_int_float. reflexivity.
Qed.

Lemma zukauskas_py_real (Re : R) :
  0 <= Re -> zukauskas_py Re = Ok (PyFloat (zukauskas Re)).
Proof.
  intros HRe. unfold zukauskas_py, zukauskas.
  rewrite (float_pow_nonneg Re) by (lra || apply zukauskas_m_pos). cbn [bind].
  rewrite float_pow_pos by (unfold PR_AIR; lra). cbn [bind].
  rewrite !pmul_float. reflexivity.
Qed.

Lemma power_mean3_py_real (a b : R) :
  0 < a -> 0 <= b ->
  power_mean3_py (PyFloat a) (PyFloat b) = Ok (PyFloat (power_mean3 a b)).
Proof.
  intros Ha Hb. unfold power_mean3_py, power_mean3.
  rewrite !pow_int_float, padd_float. cbn [ppow].
  apply float_pow_nonneg; [|lra].
  left. apply cube_sum_pos; assumption.
Qed.

(** On the physical domain every intermediate value of [h_coefficient] is a
    float, and the result is the formula. *)
Lemma h_coefficient_real (amb : AmbientConditions) (D_h : R) :
  0 < D_h -> -160 <= T_air amb -> 0 <= v_wind amb ->
  h_coefficient amb D_h = Ok (PyFloat (h_formula amb D_h)).
Proof.
  intros HD HT Hv. rewrite h_coefficient_stages. unfold h_formula_py.
  rewrite churchill_chu_py_real by (apply rayleigh_nonneg; lra). cbn [bind].
  rewrite zukauskas_py_real by (apply reynolds_nonneg; lra). cbn [bind].
  rewrite power_mean3_py_real
    by (apply churchill_chu_pos || apply zukauskas_nonneg).
  cbn [bind]. rewrite pmul_float, pdiv_float by lra. reflexivity.
Qed.

(** ** FinTubeGeometry *)

Lemma area_per_meter_factored (g : FinTubeGeometry) :
  area_per_meter g =
  PI * (tube_od_mm g / 1000) *
  (1 + fin_efficiency g * IZR (fins_per_tube g) * (2 * fin_height_mm g / 1000)).
Proof. unfold area_per_meter. field. Qed.

Lemma area_per_meter_pos (g : FinTubeGeometry) :
  valid_geometry g -> 0 < area_per_meter g.
Proof.
  intros (Hd & Hh & Hn & He & _). rewrite area_per_meter_factored.
  pose proof PI_RGT_0 as Hpi. apply IZR_le in Hn.
  apply Rmult_lt_0_compat.
  - apply Rmult_lt_0_compat; lra.
  - assert (0 <= fin_efficiency g * IZR (fins_per_tube g)
                 * (2 * fin_height_mm g / 1000)).
    { apply Rmult_le_pos; [apply Rmult_le_pos; lra|lra]. }
    lra.
Qed.

(** ** Gasifier, on the physical domain *)

Lemma finned_diameter_pos (g : FinTubeGeometry) :
  valid_geometry g -> 0 < finned_diameter_m g.
Proof. intros (Hd & Hh & _). unfold finned_diameter_m. lra. Qed.

Lemma n_tubes_pos (m : ModuleConfig) : valid_module m -> 0 < IZR (n_tubes m).
Proof.
  intros (Hx & Hy & _). apply IZR_lt. unfold n_tubes. nia.
Qed.

Section PhysicalDomain.

Variable g : Gasifier.
Hypothesis Hvalid : valid_gasifier g.
Hypothesis Hwarm : above_reference (ambient g).

Lemma total_exposed_area_pos : 0 < total_exposed_area g.
Proof.
  pose proof Hvalid as (Hg & Hm & _ & HL). unfold total_exposed_area.
  pose proof (area_per_meter_pos _ Hg). pose proof (n_tubes_pos _ Hm).
  apply Rmult_lt_0_compat; [apply Rmult_lt_0_compat|]; lra.
Qed.

Lemma h_coefficient_gasifier :
  h_coefficient (ambient g) (finned_diameter_m (geom g)) =
  Ok (PyFloat (h_formula (ambient g) (finned_diameter_m (geom g)))).
Proof.
  pose proof Hvalid as (Hg & _ & Ha & _).
  apply h_coefficient_real; [apply finned_diameter_pos|..]; assumption.
Qed.

Lemma capacity_steady_real :
  capacity g "steady" = Ok (PyFloat (capacity_steady_formula g)).
Proof.
  unfold capacity. fold (finned_diameter_m (geom g)).
  rewrite h_coefficient_gasifier. cbn [bind].
  rewrite !pmul_float.
  rewrite pdiv_float by (unfold LATENT, CP_LNG; lra). cbn [bind].
  rewrite !pmul_float, pdiv_float by lra. cbn [bind].
  change (String.eqb "steady" "cold-start") with false. cbv iota.
  do 2 f_equal. unfold capacity_steady_formula, LATENT, CP_LNG. cbv zeta.
  field. lra.
Qed.

Lemma thermal_time_constant_real :
  thermal_time_constant g = Ok (PyFloat (tau_formula g)).
Proof.
  unfold thermal_time_constant. fold (finned_diameter_m (geom g)).
  rewrite h_coefficient_gasifier. cbn [bind].
  rewrite !pmul_float.
  pose proof total_exposed_area_pos as HA.
  pose proof (h_formula_pos (ambient g) (finned_diameter_m (geom g))
                (finned_diameter_pos _ (proj1 Hvalid))) as Hh.
  unfold total_exposed_area in HA.
  assert (HhA : 0 < h_formula (ambient g) (finned_diameter_m (geom g))
                    * area_per_meter (geom g) * (tube_length_mm g / 1000)
                    * IZR (n_tubes (module g))).
  { rewrite !Rmult_assoc. apply Rmult_lt_0_compat; [exact Hh|].
    rewrite <- !Rmult_assoc. exact HA. }
  rewrite pdiv_float by lra. cbn [bind].
  rewrite pdiv_float by lra.
  do 2 f_equal. unfold tau_formula, thermal_capacitance, aluminium_mass,
    total_exposed_area.
  pose proof Hvalid as (Hg & Hm & _ & HL).
  pose proof (area_per_meter_pos _ Hg). pose proof (n_tubes_pos _ Hm).
  field. repeat split; lra.
Qed.

Lemma summary_returns : exists s, summary g = Ok s.
Proof.
  unfold summary, footprint_mm. cbv zeta.
  cbn [py_round_digits bind].
  rewrite capacity_steady_real. cbn [py_round bind].
  rewrite thermal_time_constant_real. cbn [py_round_digits bind].
  eexists. reflexivity.
Qed.

End PhysicalDomain.

(** ** ModuleConfig and the summary *)

Lemma bind_Ok_inv {A B : Type} (r : result A) (k : A -> result B) (b : B) :
  bind r k = Ok b -> exists a, r = Ok a /\ k a = Ok b.
Proof.
  destruct r as [a|e]; simpl; intros H; [|discriminate].
  exists a. split; [reflexivity|exact H].
Qed.

Ltac bind_inv H :=
  let a := fresh "a" in
  let E := fresh "E" in
  apply bind_Ok_inv in H; destruct H as (a & E & H).

Lemma round_half_even_IZR (z : Z) : round_half_even (IZR z) = z.
Proof.
  destruct (Int_part_frac_part_spec (IZR z) z 0) as [Hi Hf]; [lra|lra|].
  unfold round_half_even. rewrite <- Hi, <- Hf.
  destruct (Rlt_dec 0 (1 / 2)); [reflexivity|lra].
Qed.

Lemma summary_footprint (g : Gasifier) (s : Summary) :
  summary g = Ok s ->
  s_footprint_mm s =
  mkFootprintReport
    (round_half_even
       (fst (footprint_mm (module g)
               (tube_od_mm (geom g) + 2 * fin_height_mm (geom g)))))
    (round_half_even
       (snd (footprint_mm (module g)
               (tube_od_mm (geom g) + 2 * fin_height_mm (geom g)))))
    (tube_length_mm g).
Proof.
  unfold summary, footprint_mm. cbv zeta. cbn [fst snd]. intros H.
  do 3 bind_inv H. cbn [py_round bind] in H. do 2 bind_inv H.
  injection H as <-. reflexivity.
Qed.

(** ** When [h_coefficient] raises, and when it leaves the reals *)

Lemma float_pow_total (x y : R) : 0 < y -> exists v, float_pow x y = Ok v.
Proof.
  intros Hy. unfold float_pow.
  destruct (Req_dec_T y 0); [eexists; reflexivity|].
  destruct (Req_dec_T x 0).
  - destruct (Rlt_dec y 0); [lra|eexists; reflexivity].
  - destruct (Rlt_dec x 0); [|eexists; reflexivity].
    destruct (is_integral y); eexists; reflexivity.
Qed.

Lemma complex_pow_total (re im y : R) :
  0 < y -> exists a b, complex_pow re im y = Ok (PyComplex a b).
Proof.
  intros Hy. unfold complex_pow.
  destruct (Req_dec_T y 0); [do 2 eexists; reflexivity|].
  destruct (is_zero_dec (PyComplex re im)).
  - destruct (Rlt_dec y 0); [lra|do 2 eexists; reflexivity].
  - do 2 eexists; reflexivity.
Qed.

Lemma ppow_total (a : pynum) (y : R) : 0 < y -> exists v, ppow a y = Ok v.
Proof.
  intros Hy. destruct a as [x|re im]; simpl.
  - apply float_pow_total; assumption.
  - destruct (complex_pow_total re im y Hy) as (a & b & E).
    rewrite E. eexists; reflexivity.
Qed.

Lemma pdiv_total (a b : pynum) : ~ is_zero b -> exists q, pdiv a b = Ok q.
Proof.
  intros Hb. unfold pdiv.
  destruct (is_zero_dec b); [contradiction|].
  destruct a, b; eexists; reflexivity.
Qed.

Lemma float_nonzero (x : R) : x <> 0 -> ~ is_zero (PyFloat x).
Proof. intros Hx [E _]. simpl in E. contradiction. Qed.

Lemma churchill_chu_py_den :
  (pr916 <- float_pow (0.492 / PR_AIR) (9 / 16) ;;
   ppow (padd (PyFloat 1) pr916) (8 / 27)) = Ok (PyFloat cc_den).
Proof.
  rewrite (float_pow_pos (0.492 / PR_AIR)) by (unfold PR_AIR; lra). cbn [bind].
  rewrite padd_float. cbn [ppow].
  rewrite float_pow_pos
    by (pose proof (Rpower_pos (0.492 / PR_AIR) (9 / 16)); lra).
  reflexivity.
Qed.

(** The correlation, in terms of the sixth root alone. *)
Lemma churchill_chu_py_unfold (Ra : R) :
  churchill_chu_py Ra =
  (ra6 <- float_pow Ra (1 / 6) ;;
   quo <- pdiv (pmul (PyFloat 0.387) ra6) (PyFloat cc_den) ;;
   Ok (pow_int (padd (PyFloat 0.825) quo) 2)).
Proof.
  unfold churchill_chu_py. apply bind_ext; intros ra6.
  rewrite <- bind_assoc, churchill_chu_py_den. reflexivity.
Qed.

Lemma churchill_chu_py_total (Ra : R) : exists v, churchill_chu_py Ra = Ok v.
Proof.
  rewrite churchill_chu_py_unfold.
  destruct (float_pow_total Ra (1 / 6)) as [ra6 E]; [lra|].
  rewrite E. cbn [bind].
  destruct (pdiv_total (pmul (PyFloat 0.387) ra6) (PyFloat cc_den)) as [q Eq].
  { apply float_nonzero. pose proof cc_den_pos. lra. }
  rewrite Eq. cbn [bind]. eexists; reflexivity.
Qed.

Lemma zukauskas_py_total (Re : R) : exists v, zukauskas_py Re = Ok v.
Proof.
  unfold zukauskas_py.
  destruct (float_pow_total Re (zukauskas_m Re)) as [r E];
    [apply zukauskas_m_pos|].
  rewrite E. cbn [bind].
  rewrite float_pow_pos by (unfold PR_AIR; lra). cbn [bind].
  eexists; reflexivity.
Qed.

Lemma power_mean3_py_total (a b : pynum) : exists v, power_mean3_py a b = Ok v.
Proof. unfold power_mean3_py. apply ppow_total. lra. Qed.

(** A zero diameter always ends in the division by [D_h]. *)
Lemma h_coefficient_zero_diameter (amb : AmbientConditions) :
  h_coefficient amb 0 = Raise ZeroDivisionError.
Proof.
  rewrite h_coefficient_stages. unfold h_formula_py.
  destruct (churchill_chu_py_total (rayleigh amb 0)) as [a ->]. cbn [bind].
  destruct (zukauskas_py_total (reynolds amb 0)) as [b ->]. cbn [bind].
  destruct (power_mean3_py_total a b) as [c ->]. cbn [bind].
  apply pdiv_zero.
Qed.

(** Any other diameter, negative ones included, returns a value. *)
Lemma h_coefficient_total (amb : AmbientConditions) (D_h : R) :
  D_h <> 0 -> exists v, h_coefficient amb D_h = Ok v.
Proof.
  intros HD. rewrite h_coefficient_stages. unfold h_formula_py.
  destruct (churchill_chu_py_total (rayleigh amb D_h)) as [a ->]. cbn [bind].
  destruct (zukauskas_py_total (reynolds amb D_h)) as [b ->]. cbn [bind].
  destruct (power_mean3_py_total a b) as [c ->]. cbn [bind].
  apply pdiv_total, float_nonzero, HD.
Qed.

Lemma not_integral_between (y : R) (k : Z) :
  IZR k < y < IZR k + 1 -> is_integral y = false.
Proof.
  intros [Hlo Hhi]. unfold is_integral.
  destruct (Req_dec_T (frac_part y) 0) as [E|_]; [|reflexivity].
  exfalso. unfold frac_part in E.
  assert (Hy : y = IZR (Int_part y)) by lra.
  rewrite Hy in Hlo, Hhi. rewrite <- (plus_IZR k 1) in Hhi.
  apply lt_IZR in Hlo, Hhi. lia.
Qed.

Lemma float_pow_neg (x y : R) :
  x < 0 -> y <> 0 -> is_integral y = false ->
  float_pow x y = Ok (PyComplex (Rpower (- x) y * cos (PI * y))
                                (Rpower (- x) y * sin (PI * y))).
Proof.
  intros Hx Hy Hi. unfold float_pow.
  destruct (Req_dec_T y 0); [contradiction|].
  destruct (Req_dec_T x 0); [lra|].
  destruct (Rlt_dec x 0); [|lra].
  rewrite Hi. reflexivity.
Qed.

Lemma pmul_float_complex (r a b : R) :
  pmul (PyFloat r) (PyComplex a b) = PyComplex (r * a) (r * b).
Proof. unfold pmul; simpl. f_equal; ring. Qed.

Lemma pmul_complex_float (a b r : R) :
  pmul (PyComplex a b) (PyFloat r) = PyComplex (a * r) (b * r).
Proof. unfold pmul; simpl. f_equal; ring. Qed.

Lemma padd_float_complex (r a b : R) :
  padd (PyFloat r) (PyComplex a b) = PyComplex (r + a) b.
Proof. unfold padd; simpl. f_equal; ring. Qed.

Lemma pdiv_complex_float (a b d : R) :
  d <> 0 -> pdiv (PyComplex a b) (PyFloat d) = Ok (PyComplex (a / d) (b / d)).
Proof.
  intros Hd. unfold pdiv.
  destruct (is_zero_dec (PyFloat d)) as [[E _]|_]; [simpl in E; contradiction|].
  simpl. do 2 f_equal; field; assumption.
Qed.

Lemma pmul_complex_l (a b : R) (c : pynum) :
  exists x y, pmul (PyComplex a b) c = PyComplex x y.
Proof. destruct c; do 2 eexists; reflexivity. Qed.

Lemma padd_complex_l (a b : R) (c : pynum) :
  exists x y, padd (PyComplex a b) c = PyComplex x y.
Proof. destruct c; do 2 eexists; reflexivity. Qed.

Lemma churchill_chu_py_complex (Ra : R) :
  Ra < 0 ->
  churchill_chu_py Ra =
  Ok (PyComplex (cc_re Ra * cc_re Ra - cc_im Ra * cc_im Ra)
                (cc_re Ra * cc_im Ra + cc_im Ra * cc_re Ra)).
Proof.
  intros HRa. rewrite churchill_chu_py_unfold.
  rewrite float_pow_neg;
    [|assumption|lra|apply (not_integral_between _ 0); lra].
  cbn [bind]. rewrite pmul_float_complex.
  rewrite pdiv_complex_float by (pose proof cc_den_pos; lra). cbn [bind].
  rewrite padd_float_complex. reflexivity.
Qed.

(** With a negative Rayleigh number, which is what a negative diameter
    gives above the reference temperature, the result is a complex number. *)
Lemma h_coefficient_complex (amb : AmbientConditions) (D_h : R) :
  rayleigh amb D_h < 0 -> D_h <> 0 ->
  exists re im, h_coefficient amb D_h = Ok (PyComplex re im).
Proof.
  intros HRa HD. rewrite h_coefficient_stages. unfold h_formula_py.
  rewrite churchill_chu_py_complex by assumption. cbn [bind].
  destruct (zukauskas_py_total (reynolds amb D_h)) as [b ->]. cbn [bind].
  unfold power_mean3_py. cbn [pow_int].
  match goal with |- context [pmul ?a (pmul ?a ?a)] =>
    destruct (pmul_complex_l (re_part a) (im_part a) a) as (x & y & E1);
    cbn [re_part im_part] in E1; rewrite E1 end.
  match goal with |- context [pmul (PyComplex ?p ?q) (PyComplex x y)] =>
    destruct (pmul_complex_l p q (PyComplex x y)) as (x2 & y2 & E2); rewrite E2
  end.
  match goal with |- context [padd (PyComplex x2 y2) ?c] =>
    destruct (padd_complex_l x2 y2 c) as (x3 & y3 & E3); rewrite E3 end.
  cbn [ppow].
  destruct (complex_pow_total x3 y3 (1 / 3)) as (x4 & y4 & ->); [lra|].
  cbn [bind]. rewrite pmul_complex_float.
  rewrite pdiv_complex_float by assumption.
  do 2 eexists; reflexivity.
Qed.

Lemma rayleigh_negative_diameter (amb : AmbientConditions) (D_h : R) :
  -160 < T_air amb -> D_h < 0 -> rayleigh amb D_h < 0.
Proof.
  intros HT HD. unfold rayleigh, grashof, PR_AIR, MU_AIR.
  assert (H3 : D_h ^ 3 < 0).
  { replace (D_h ^ 3) with (- ((- D_h) ^ 3)) by ring.
    assert (0 < (- D_h) ^ 3) by (apply pow_lt; lra). lra. }
  assert (Hq : D_h ^ 3 / (1.8e-5) ^ 2 < 0).
  { apply Ropp_lt_cancel. rewrite Ropp_0.
    replace (- (D_h ^ 3 / (1.8e-5) ^ 2)) with ((- D_h ^ 3) / (1.8e-5) ^ 2)
      by (field; lra).
    apply Rdiv_lt_0_compat; lra. }
  assert (Hp : 0 < 9.81 * (1 / 273.15) * (T_air amb - -160))
    by (apply Rmult_lt_0_compat; lra).
  nra.
Qed.

(** ** The coefficient is never zero on a valid tube *)

Lemma cc_parts (Ra : R) :
  Ra < 0 ->
  exists t, 0 < t /\ cc_re Ra = 0.825 + sqrt 3 * t /\ cc_im Ra = t.
Proof.
  intros HRa. unfold cc_re, cc_im.
  replace (PI * (1 / 6)) with (PI / 6) by lra.
  rewrite cos_PI6, sin_PI6.
  pose proof cc_den_pos as Hd. pose proof (Rpower_pos (- Ra) (1 / 6)) as Hr.
  exists (0.387 * Rpower (- Ra) (1 / 6) / (2 * cc_den)).
  repeat split.
  - apply Rdiv_lt_0_compat; lra.
  - field. lra.
  - field. lra.
Qed.

(** The imaginary part of [(u + i v) ** 6] is positive when the argument of
    [u + i v] lies strictly between 0 and [pi / 6]. *)
Lemma sixth_power_im_pos (s c t : R) :
  s * s = 3 -> 0 < s -> 0 < c -> 0 < t ->
  let u := c + s * t in
  let v := t in
  let p := u * u - v * v in
  let q := u * v + v * u in
  0 < p * (p * q + q * p) + q * (p * p - q * q).
Proof.
  intros Hs Hs0 Hc Ht u v p q.
  assert (Hs1 : 1 < s) by nra.
  assert (Hu : 0 < u) by (unfold u; nra).
  assert (Huv : 0 < u - v) by (unfold u, v; nra).
  assert (Hp : 0 < p).
  { replace p with ((u - v) * (u + v)) by (unfold p; ring).
    apply Rmult_lt_0_compat; unfold v in *; lra. }
  assert (Hq : 0 < q).
  { replace q with (2 * (u * v)) by (unfold q; ring).
    assert (0 < u * v) by (apply Rmult_lt_0_compat; unfold v; lra). lra. }
  assert (Hm : 0 < s * p - q).
  { replace (s * p - q) with ((s * u + v) * c).
    - apply Rmult_lt_0_compat; [|exact Hc].
      assert (0 < s * u) by (apply Rmult_lt_0_compat; lra). unfold v; lra.
    - unfold p, q, u, v.
      replace ((c + s * t) * (c + s * t)) with (c * c + 2 * c * s * t + (s * s) * t * t) by ring.
      rewrite Hs. ring_simplify.
      replace (s ^ 2) with (s * s) by ring. rewrite Hs. ring. }
  assert (Hsp : 0 < s * p) by (apply Rmult_lt_0_compat; lra).
  replace (p * (p * q + q * p) + q * (p * p - q * q))
    with (q * ((s * s) * p * p - q * q)) by (rewrite Hs; ring).
  apply Rmult_lt_0_compat; [exact Hq|].
  replace (s * s * p * p - q * q) with ((s * p - q) * (s * p + q)) by ring.
  apply Rmult_lt_0_compat; lra.
Qed.

Lemma complex_nonzero_im (a b : R) : b <> 0 -> ~ is_zero (PyComplex a b).
Proof. intros Hb [_ E]. simpl in E. contradiction. Qed.

Lemma complex_pow_nonzero (re im y : R) :
  y <> 0 -> ~ is_zero (PyComplex re im) ->
  exists a b, complex_pow re im y = Ok (PyComplex a b) /\
              ~ is_zero (PyComplex a b).
Proof.
  intros Hy Hz. unfold complex_pow.
  destruct (Req_dec_T y 0); [contradiction|].
  destruct (is_zero_dec (PyComplex re im)); [contradiction|].
  do 2 eexists. split; [reflexivity|].
  intros [E1 E2]. simpl in E1, E2.
  set (len := Rpower (sqrt (re * re + im * im)) y) in *.
  set (phase := atan2 im re * y) in *.
  assert (Hl : 0 < len) by apply Rpower_pos.
  pose proof (sin2_cos2 phase) as Hsc. unfold Rsqr in Hsc.
  assert (cos phase = 0) by nra.
  assert (sin phase = 0) by nra.
  nra.
Qed.

Lemma pmul_nonzero_float (a : pynum) (r : R) :
  ~ is_zero a -> r <> 0 -> ~ is_zero (pmul a (PyFloat r)).
Proof.
  intros Ha Hr. destruct a as [x|x y].
  - rewrite pmul_float. apply float_nonzero.
    intros E. apply Rmult_integral in E. destruct E as [E|E]; [|contradiction].
    apply Ha. split; [exact E|reflexivity].
  - rewrite pmul_complex_float. intros [E1 E2]. simpl in E1, E2.
    apply Rmult_integral in E1, E2.
    destruct E1 as [E1|E1]; [|contradiction].
    destruct E2 as [E2|E2]; [|contradiction].
    apply Ha. split; assumption.
Qed.

Lemma pdiv_nonzero_float (a : pynum) (d : R) :
  ~ is_zero a -> d <> 0 ->
  exists q, pdiv a (PyFloat d) = Ok q /\ ~ is_zero q.
Proof.
  intros Ha Hd. destruct a as [x|x y].
  - rewrite pdiv_float by assumption. eexists. split; [reflexivity|].
    apply float_nonzero. intros E. apply Ha. split; [|reflexivity]. simpl.
    apply (Rmult_eq_compat_r d) in E. field_simplify in E; lra.
  - rewrite pdiv_complex_float by assumption. eexists. split; [reflexivity|].
    intros [E1 E2]. simpl in E1, E2. apply Ha. split; simpl.
    + apply (Rmult_eq_compat_r d) in E1. field_simplify in E1; lra.
    + apply (Rmult_eq_compat_r d) in E2. field_simplify in E2; lra.
Qed.

Lemma rayleigh_below_reference (amb : AmbientConditions) (D_h : R) :
  T_air amb < -160 -> 0 < D_h -> rayleigh amb D_h < 0.
Proof.
  intros HT HD. unfold rayleigh, grashof, PR_AIR, MU_AIR.
  assert (H3 : 0 < D_h ^ 3) by (apply pow_lt; assumption).
  assert (Hq : 0 < D_h ^ 3 / (1.8e-5) ^ 2) by (apply Rdiv_lt_0_compat; lra).
  assert (Hp : 9.81 * (1 / 273.15) * (T_air amb - -160) < 0) by nra.
  nra.
Qed.

Lemma h_coefficient_nonzero (amb : AmbientConditions) (D_h : R) :
  0 < D_h -> 0 <= v_wind amb ->
  exists h, h_coefficient amb D_h = Ok h /\ ~ is_zero h.
Proof.
  intros HD Hv. destruct (Rle_dec (-160) (T_air amb)) as [HT|HT].
  - rewrite h_coefficient_real by assumption.
    eexists. split; [reflexivity|].
    apply float_nonzero. pose proof (h_formula_pos amb D_h HD). lra.
  - assert (HRa : rayleigh amb D_h < 0)
      by (apply rayleigh_below_reference; lra).
    rewrite h_coefficient_stages. unfold h_formula_py.
    rewrite churchill_chu_py_complex by assumption. cbn [bind].
    rewrite zukauskas_py_real by (apply reynolds_nonneg; lra). cbn [bind].
    unfold power_mean3_py. rewrite pow_int_float.
    cbn [pow_int pmul padd re_part im_part ppow].
    destruct (cc_parts _ HRa) as (t & Ht & -> & ->).
    assert (Hs : sqrt 3 * sqrt 3 = 3) by (apply sqrt_sqrt; lra).
    assert (Hs0 : 0 < sqrt 3) by (apply sqrt_lt_R0; lra).
    pose proof (sixth_power_im_pos (sqrt 3) 0.825 t Hs Hs0 ltac:(lra) Ht) as Him.
    cbv zeta in Him.
    match goal with |- context [complex_pow ?x ?y ?e] =>
      destruct (complex_pow_nonzero x y e) as (a & b & -> & Hab);
      [lra|apply complex_nonzero_im; lra|] end.
    cbn [bind].
    apply pdiv_nonzero_float; [|lra].
    apply pmul_nonzero_float; [exact Hab|unfold K_AIR; lra].
Qed.

(** ** Gasifier, for every valid input *)

Lemma pmul_comm (a b : pynum) : pmul a b = pmul b a.
Proof. destruct a, b; unfold pmul; simpl; f_equal; ring. Qed.

Lemma pdiv_float_complex (c x y : R) :
  ~ is_zero (PyComplex x y) ->
  pdiv (PyFloat c) (PyComplex x y) =
  Ok (PyComplex (c * x / (x * x + y * y)) (- c * y / (x * x + y * y))).
Proof.
  intros Hz. unfold pdiv.
  destruct (is_zero_dec (PyComplex x y)); [contradiction|].
  simpl. do 2 f_equal.
  - f_equal. ring.
  - f_equal. ring.
Qed.

Lemma complex_modulus_nonzero (x y : R) :
  ~ is_zero (PyComplex x y) -> x * x + y * y <> 0.
Proof.
  intros Hz E. apply Hz. split; simpl; nra.
Qed.

Section ValidGasifier.

Variable g : Gasifier.
Hypothesis Hvalid : valid_gasifier g.

Lemma h_coefficient_gasifier_nonzero :
  exists h, h_coefficient (ambient g) (finned_diameter_m (geom g)) = Ok h /\
            ~ is_zero h.
Proof.
  pose proof Hvalid as (Hg & _ & Ha & _).
  apply h_coefficient_nonzero; [apply finned_diameter_pos|]; assumption.
Qed.

Lemma conductance_nonzero (h : pynum) :
  ~ is_zero h ->
  ~ is_zero (pmul (pmul (pmul h (PyFloat (area_per_meter (geom g))))
                        (PyFloat (tube_length_mm g / 1000)))
                  (PyFloat (IZR (n_tubes (module g))))).
Proof.
  intros Hh. pose proof Hvalid as (Hg & Hm & _ & HL).
  pose proof (area_per_meter_pos _ Hg). pose proof (n_tubes_pos _ Hm).
  repeat apply pmul_nonzero_float; try assumption; lra.
Qed.

Lemma thermal_time_constant_total :
  exists tau, thermal_time_constant g = Ok tau.
Proof.
  destruct h_coefficient_gasifier_nonzero as (h & Eh & Hh).
  unfold thermal_time_constant. fold (finned_diameter_m (geom g)).
  rewrite Eh. cbn [bind].
  match goal with |- context [pdiv ?a ?b] =>
    destruct (pdiv_total a b (conductance_nonzero h Hh)) as [q ->] end.
  cbn [bind]. apply pdiv_total, float_nonzero. lra.
Qed.

(** The cold-start capacity is half the steady one, whatever the air
    temperature. *)
Lemma capacity_cold_start_half :
  exists f, capacity g "steady" = Ok f /\
            capacity g "cold-start" = Ok (pmul (PyFloat 0.5) f).
Proof.
  destruct h_coefficient_gasifier_nonzero as (h & Eh & _).
  destruct thermal_time_constant_total as [tau Etau].
  unfold capacity. fold (finned_diameter_m (geom g)).
  rewrite Eh. cbn [bind].
  match goal with |- context [pdiv ?a (PyFloat (LATENT + ?c))] =>
    destruct (pdiv_total a (PyFloat (LATENT + c))) as [m ->];
    [apply float_nonzero; unfold LATENT, CP_LNG; lra|] end.
  cbn [bind].
  match goal with |- context [pdiv ?a (PyFloat 0.693)] =>
    destruct (pdiv_total a (PyFloat 0.693)) as [f ->];
    [apply float_nonzero; lra|] end.
  cbn [bind]. exists f.
  change (String.eqb "steady" "cold-start") with false.
  change (String.eqb "cold-start" "cold-start") with true. cbv iota.
  split; [reflexivity|].
  rewrite Etau. cbn [bind]. f_equal. apply pmul_comm.
Qed.

(** The exposed area cancels: the time constant is a function of the
    coefficient alone. *)
Lemma thermal_time_constant_cancels :
  exists h tau,
    h_coefficient (ambient g) (finned_diameter_m (geom g)) = Ok h /\
    thermal_time_constant g = Ok tau /\
    pdiv (PyFloat (2700 * 0.002 * 900)) (pmul (PyFloat 3600) h) = Ok tau.
Proof.
  destruct h_coefficient_gasifier_nonzero as (h & Eh & Hh).
  exists h. unfold thermal_time_constant. fold (finned_diameter_m (geom g)).
  rewrite Eh. cbn [bind].
  pose proof (conductance_nonzero h Hh) as HhA.
  pose proof Hvalid as (Hg & Hm & _ & HL).
  pose proof (area_per_meter_pos _ Hg) as Hapm.
  pose proof (n_tubes_pos _ Hm) as Hn.
  destruct h as [x|x y].
  - assert (Hx : x <> 0).
    { intros E. apply Hh. split; [exact E|reflexivity]. }
    rewrite !pmul_float in *.
    assert (HhA' : x * area_per_meter (geom g) * (tube_length_mm g / 1000)
                   * IZR (n_tubes (module g)) <> 0).
    { intros E. apply HhA. split; [exact E|reflexivity]. }
    rewrite pdiv_float by exact HhA'. cbn [bind].
    rewrite !pdiv_float by (try lra; intros E; apply Hx; lra).
    eexists. split; [reflexivity|split; [reflexivity|]].
    do 2 f_equal. field. repeat split; lra.
  - rewrite !pmul_complex_float, pmul_float_complex in *.
    rewrite pdiv_float_complex by exact HhA. cbn [bind].
    rewrite pdiv_complex_float by lra.
    pose proof (complex_modulus_nonzero _ _ Hh) as Hmod.
    pose proof (complex_modulus_nonzero _ _ HhA) as HmodA.
    assert (Hz : ~ is_zero (PyComplex (3600 * x) (3600 * y))).
    { intros [E1 E2]. simpl in E1, E2. apply Hh. split; simpl; lra. }
    rewrite (pdiv_float_complex _ _ _ Hz).
    eexists. split; [reflexivity|split; [reflexivity|]].
    do 2 f_equal; field; repeat split; try lra; try exact Hmod.
Qed.

End ValidGasifier.

(** Outside the data model the two modes part: a bank without tubes has a
    steady capacity, while the cold-start branch divides by a zero
    conductance. *)
Lemma capacity_cold_start_without_tubes (g : Gasifier) :
  valid_geometry (geom g) -> valid_ambient (ambient g) ->
  above_reference (ambient g) -> n_tubes (module g) = 0%Z ->
  (exists f, capacity g "steady" = Ok f) /\
  capacity g "cold-start" = Raise ZeroDivisionError.
Proof.
  intros Hg Ha HT Hn.
  assert (Eh : h_coefficient (ambient g) (finned_diameter_m (geom g))
               = Ok (PyFloat (h_formula (ambient g) (finned_diameter_m (geom g))))).
  { apply h_coefficient_real; [apply finned_diameter_pos|..]; assumption. }
  unfold capacity, thermal_time_constant. fold (finned_diameter_m (geom g)).
  rewrite Eh, Hn. cbn [bind]. rewrite !pmul_float.
  rewrite pdiv_float by (unfold LATENT, CP_LNG; lra). cbn [bind].
  rewrite !pmul_float, pdiv_float by lra. cbn [bind].
  change (String.eqb "steady" "cold-start") with false.
  change (String.eqb "cold-start" "cold-start") with true. cbv iota.
  split; [eexists; reflexivity|].
  match goal with |- context [pdiv _ (PyFloat ?d)] =>
    replace d with 0 by ring end.
  rewrite pdiv_zero. reflexivity.
Qed.

(** ** The step of the forced correlation at Re = 1e5 *)

Lemma Rpower_1e5_0185 : Rpower 1e5 0.185 < 10.
Proof.
  replace 1e5 with (10 ^ 5) by lra.
  rewrite <- (Rpower_pow 5 10) by lra.
  rewrite Rpower_mult.
  rewrite <- (Rpower_1 10) at 2 by lra.
  apply Rpower_lt; [lra|]. simpl. lra.
Qed.

Lemma Rpower_095_062 : 0.95 <= Rpower 0.95 0.62.
Proof.
  assert (Hln : ln 0.95 < 0).
  { rewrite <- ln_1. apply ln_increasing; lra. }
  rewrite <- (exp_ln 0.95) at 1 by lra.
  unfold Rpower. left. apply exp_increasing. nra.
Qed.

(** Just under the threshold the forced Nusselt number is well above its
    value at the threshold. *)
Lemma zukauskas_step : zukauskas 1e5 < zukauskas_below.
Proof.
  unfold zukauskas, zukauskas_below, zukauskas_C, zukauskas_m.
  destruct (Rlt_dec 1e5 1e5) as [H|_]; [lra|].
  rewrite rpow_pos by lra.
  pose proof Rpower_1e5_0185 as HB. pose proof Rpower_095_062 as H95.
  replace 0.95e5 with (0.95 * 100000) by lra.
  replace 1e5 with 100000 in * by lra.
  replace 0.805 with (0.62 + 0.185) by lra. rewrite Rpower_plus.
  rewrite <- (Rpower_mult_distr 0.95 100000 0.62) by lra.
  pose proof (Rpower_pos 100000 0.62) as HA.
  pose proof (Rpower_pos PR_AIR 0.37) as HP.
  set (A := Rpower 100000 0.62) in *. set (B := Rpower 100000 0.185) in *.
  set (P := Rpower PR_AIR 0.37) in *. set (S := Rpower 0.95 0.62) in *.
  assert (HAP : 0 < A * P) by (apply Rmult_lt_0_compat; assumption).
  assert (H1 : 0 < (10 - B) * (A * P)) by (apply Rmult_lt_0_compat; lra).
  assert (H2 : 0 <= (S - 0.95) * (A * P)) by (apply Rmult_le_pos; lra).
  lra.
Qed.

Lemma zukauskas_ge_below (Re : R) :
  0.95e5 <= Re < 1e5 -> zukauskas_below <= zukauskas Re.
Proof.
  intros [Hlo Hhi]. unfold zukauskas, zukauskas_below, zukauskas_C, zukauskas_m.
  destruct (Rlt_dec Re 1e5) as [_|H]; [|lra].
  rewrite rpow_pos by lra.
  pose proof (Rpower_pos PR_AIR 0.37) as HP.
  apply Rmult_le_compat_r; [lra|].
  apply Rmult_le_compat_l; [lra|].
  apply Rle_Rpower_l; lra.
Qed.

Lemma cube_lt (x y : R) : 0 <= x -> x < y -> x ^ 3 < y ^ 3.
Proof.
  intros Hx Hxy.
  assert (H : 0 < (y - x) * (y * y + x * y + x * x)).
  { apply Rmult_lt_0_compat; [lra|]. nra. }
  replace (y ^ 3) with (x ^ 3 + (y - x) * (y * y + x * y + x * x)) by ring.
  lra.
Qed.

Lemma power_mean3_lt (a x y : R) :
  0 < a -> 0 <= x -> x < y -> power_mean3 a x < power_mean3 a y.
Proof.
  intros Ha Hx Hxy. unfold power_mean3.
  pose proof (cube_sum_pos a x Ha Hx). pose proof (cube_lt x y Hx Hxy).
  rewrite !rpow_pos by lra.
  apply Rlt_Rpower_l; lra.
Qed.

Lemma power_mean3_le (a x y : R) :
  0 < a -> 0 <= x -> x <= y -> power_mean3 a x <= power_mean3 a y.
Proof.
  intros Ha Hx Hxy. destruct Hxy as [Hlt | ->]; [|lra].
  left. apply power_mean3_lt; assumption.
Qed.

Lemma reynolds_with_wind (amb : AmbientConditions) (D_h v : R) :
  reynolds (with_wind amb v) D_h = v * D_h / MU_AIR.
Proof.
  unfold reynolds, with_wind, RHO_GNG. cbn [v_wind].
  replace 1.0 with 1 by lra. unfold Rdiv. ring.
Qed.

Lemma MU_AIR_pos : 0 < MU_AIR.
Proof. unfold MU_AIR. lra. Qed.

Lemma Nu_natural_with_wind (amb : AmbientConditions) (D_h v : R) :
  Nu_natural (with_wind amb v) D_h = Nu_natural amb D_h.
Proof. reflexivity. Qed.

Lemma h_value_real (amb : AmbientConditions) (D_h : R) :
  0 < D_h -> -160 <= T_air amb -> 0 <= v_wind amb ->
  h_value amb D_h = h_formula amb D_h.
Proof.
  intros HD HT Hv. unfold h_value.
  rewrite h_coefficient_real by assumption. reflexivity.
Qed.

Section Threshold.

Variable amb : AmbientConditions.
Variable D_h : R.
Hypothesis HT : above_reference amb.
Hypothesis HD : 0 < D_h.

Lemma threshold_wind_scaled : threshold_wind D_h * (D_h / MU_AIR) = 1e5.
Proof.
  unfold threshold_wind, RHO_GNG. pose proof MU_AIR_pos as Hm.
  replace 1.0 with 1 by lra. generalize 1e5; intros c.
  field. lra.
Qed.

Lemma reynolds_threshold :
  reynolds (with_wind amb (threshold_wind D_h)) D_h = 1e5.
Proof.
  rewrite reynolds_with_wind.
  rewrite <- threshold_wind_scaled. unfold Rdiv. ring.
Qed.

Lemma threshold_wind_pos : 0 < threshold_wind D_h.
Proof.
  unfold threshold_wind, RHO_GNG. pose proof MU_AIR_pos.
  apply Rdiv_lt_0_compat; nra.
Qed.

Lemma reynolds_near_threshold (v : R) :
  0.95 * threshold_wind D_h <= v < threshold_wind D_h ->
  0.95e5 <= reynolds (with_wind amb v) D_h < 1e5.
Proof.
  intros [Hlo Hhi]. rewrite reynolds_with_wind.
  assert (Hk : 0 < D_h / MU_AIR)
    by (apply Rdiv_lt_0_compat; [lra|apply MU_AIR_pos]).
  pose proof threshold_wind_scaled as Ht.
  replace (v * D_h / MU_AIR) with (v * (D_h / MU_AIR)) by (unfold Rdiv; ring).
  split; nra.
Qed.

(** The drop: a fixed gap separates the coefficient at the threshold from
    the coefficient at every wind speed within 5 % below it. *)
Lemma h_formula_gap :
  exists eps, 0 < eps /\
    forall v, 0.95 * threshold_wind D_h <= v < threshold_wind D_h ->
      h_formula (with_wind amb (threshold_wind D_h)) D_h + eps
      <= h_formula (with_wind amb v) D_h.
Proof.
  set (a := Nu_natural amb D_h).
  assert (Ha : 0 < a) by apply churchill_chu_pos.
  pose proof zukauskas_step as Hstep.
  pose proof (zukauskas_nonneg 1e5) as H0.
  assert (HK : 0 < K_AIR / D_h)
    by (unfold K_AIR; apply Rdiv_lt_0_compat; lra).
  pose proof (power_mean3_lt a _ _ Ha H0 Hstep) as Hgap.
  exists ((power_mean3 a zukauskas_below - power_mean3 a (zukauskas 1e5))
          * (K_AIR / D_h)).
  split; [apply Rmult_lt_0_compat; lra|].
  intros v Hv. unfold h_formula, Nu_mixed, Nu_forced.
  rewrite !Nu_natural_with_wind. fold a.
  rewrite reynolds_threshold.
  pose proof (reynolds_near_threshold v Hv) as HRe.
  pose proof (zukauskas_ge_below _ HRe) as Hge.
  assert (Hle : power_mean3 a zukauskas_below
                <= power_mean3 a (zukauskas (reynolds (with_wind amb v) D_h))).
  { apply power_mean3_le; [exact Ha| |exact Hge]. lra. }
  unfold Rdiv in *. nra.
Qed.

(** The same drop, on what the code returns. *)
Lemma h_coefficient_gap :
  exists eps h0, 0 < eps /\
    h_coefficient (with_wind amb (threshold_wind D_h)) D_h = Ok (PyFloat h0) /\
    forall v, 0.95 * threshold_wind D_h <= v < threshold_wind D_h ->
      exists h, h_coefficient (with_wind amb v) D_h = Ok (PyFloat h) /\
                h0 + eps <= h.
Proof.
  destruct h_formula_gap as (eps & Heps & Hgap).
  pose proof threshold_wind_pos as Hv0.
  exists eps, (h_formula (with_wind amb (threshold_wind D_h)) D_h).
  split; [exact Heps|]. split.
  - apply h_coefficient_real; [assumption|exact HT|simpl; lra].
  - intros v Hv. exists (h_formula (with_wind amb v) D_h). split.
    + apply h_coefficient_real; [assumption|exact HT|simpl; lra].
    + apply Hgap, Hv.
Qed.

(** So the coefficient, as a function of the wind speed, is not continuous
    where the Reynolds number reaches 1e5. *)
Lemma h_value_not_continuous :
  ~ continuity_pt (fun v => h_value (with_wind amb v) D_h) (threshold_wind D_h).
Proof.
  intros Hc. destruct h_formula_gap as (eps & Heps & Hgap).
  pose proof threshold_wind_pos as Hv0.
  destruct (Hc eps Heps) as (alp & Halp & Hlim).
  set (v0 := threshold_wind D_h) in *.
  set (d := Rmin (alp / 2) (0.05 * v0)).
  assert (Hd0 : 0 < d) by (unfold d; apply Rmin_glb_lt; lra).
  assert (Hd1 : d <= alp / 2) by apply Rmin_l.
  assert (Hd2 : d <= 0.05 * v0) by apply Rmin_r.
  assert (Hrange : 0.95 * v0 <= v0 - d < v0) by lra.
  specialize (Hlim (v0 - d)). specialize (Hgap (v0 - d) Hrange).
  assert (Hdist : Rabs (h_value (with_wind amb (v0 - d)) D_h
                       - h_value (with_wind amb v0) D_h) < eps).
  { apply Hlim. split.
    - split; [exact I|lra].
    - simpl. unfold Rdist. rewrite Rabs_left; lra. }
  rewrite !h_value_real in Hdist by (assumption || (simpl; lra)).
  rewrite Rabs_right in Hdist; lra.
Qed.

End Threshold.

(** ** The size of the step on the default tube *)

Lemma Rpower_root (x : R) (n : nat) :
  0 < x -> (0 < n)%nat -> Rpower (x ^ n) (1 / INR n) = x.
Proof.
  intros Hx Hn. rewrite <- Rpower_pow by assumption. rewrite Rpower_mult.
  replace (INR n * (1 / INR n)) with 1.
  - apply Rpower_1; assumption.
  - field. apply not_0_INR. lia.
Qed.

Lemma Rpower_base_lt1 (x y : R) : 0 < x < 1 -> 0 < y < 1 -> x <= Rpower x y.
Proof.
  intros Hx Hy.
  assert (Hln : ln x < 0) by (rewrite <- ln_1; apply ln_increasing; lra).
  rewrite <- (exp_ln x) at 1 by lra.
  unfold Rpower. left. apply exp_increasing. nra.
Qed.

(** The step is at least one part in eighteen of the forced Nusselt
    number. *)
Lemma zukauskas_step_ratio : 19 / 18 * zukauskas 1e5 <= zukauskas_below.
Proof.
  unfold zukauskas, zukauskas_below, zukauskas_C, zukauskas_m.
  destruct (Rlt_dec 1e5 1e5) as [H|_]; [lra|].
  rewrite rpow_pos by lra.
  pose proof Rpower_1e5_0185 as HB.
  pose proof (Rpower_base_lt1 0.95 0.62 ltac:(lra) ltac:(lra)) as H95.
  replace 0.95e5 with (0.95 * 100000) by lra.
  replace 1e5 with 100000 in * by lra.
  replace 0.805 with (0.62 + 0.185) by lra. rewrite Rpower_plus.
  rewrite <- (Rpower_mult_distr 0.95 100000 0.62) by lra.
  pose proof (Rpower_pos 100000 0.62) as HA.
  pose proof (Rpower_pos PR_AIR 0.37) as HP.
  set (A := Rpower 100000 0.62) in *. set (B := Rpower 100000 0.185) in *.
  set (P := Rpower PR_AIR 0.37) in *. set (S := Rpower 0.95 0.62) in *.
  assert (HAP : 0 < A * P) by (apply Rmult_lt_0_compat; assumption).
  assert (H1 : 0 < (10 - B) * (A * P)) by (apply Rmult_lt_0_compat; lra).
  assert (H2 : 0 <= (S - 0.95) * (A * P)) by (apply Rmult_le_pos; lra).
  lra.
Qed.

Lemma cube_le (x y : R) : 0 <= x -> x <= y -> x ^ 3 <= y ^ 3.
Proof. intros Hx Hxy. apply pow_incr. lra. Qed.

(** When the natural Nusselt number does not exceed the forced one, a step
    of one part in eighteen in the latter is a step of more than 2 % in the
    blend. *)
Lemma power_mean3_ratio (a x y : R) :
  0 < a <= x -> 19 / 18 * x <= y ->
  1.02 * power_mean3 a x <= power_mean3 a y.
Proof.
  intros [Ha Hax] Hxy. unfold power_mean3.
  assert (Hx : 0 <= x) by lra. assert (Hy : 0 <= y) by lra.
  pose proof (cube_sum_pos a x Ha Hx) as Hsx.
  pose proof (cube_sum_pos a y Ha Hy) as Hsy.
  rewrite !rpow_pos by assumption.
  rewrite <- (Rpower_root 1.02 3) at 1 by (lra || lia).
  rewrite INR_3, Rpower_mult_distr by (assumption || lra).
  apply Rle_Rpower_l; [lra|]. split; [nra|].
  pose proof (cube_le a x (Rlt_le _ _ Ha) Hax) as H1.
  pose proof (cube_le (19 / 18 * x) y ltac:(lra) Hxy) as H2.
  replace ((19 / 18 * x) ^ 3) with ((19 / 18) ^ 3 * x ^ 3) in H2 by ring.
  assert (0 <= x ^ 3) by (apply pow_le; assumption).
  lra.
Qed.

Lemma cc_den_ge1 : 1 <= cc_den.
Proof.
  unfold cc_den. pose proof (Rpower_pos (0.492 / PR_AIR) (9 / 16)) as H.
  rewrite <- (Rpower_O (1 + Rpower (0.492 / PR_AIR) (9 / 16))) at 1 by lra.
  apply Rle_Rpower; lra.
Qed.

Lemma Nu_natural_default : Nu_natural default_ambient 0.428 <= 185.
Proof.
  unfold Nu_natural, churchill_chu. fold cc_den.
  set (Ra := rayleigh default_ambient 0.428).
  assert (HRa : 0 < Ra <= 33 ^ 6).
  { unfold Ra, rayleigh, grashof, default_ambient, MU_AIR, PR_AIR; simpl T_air.
    split; lra. }
  assert (Hroot : rpow Ra (1 / 6) <= 33).
  { rewrite rpow_pos by lra.
    rewrite <- (Rpower_root 33 6) by (lra || lia).
    replace (INR 6) with 6 by (simpl; lra).
    apply Rle_Rpower_l; lra. }
  pose proof (rpow_nonneg Ra (1 / 6)) as H0.
  pose proof cc_den_ge1 as Hden.
  assert (Hinv : 0 < / cc_den <= 1).
  { split; [apply Rinv_0_lt_compat; lra|].
    rewrite <- Rinv_1. apply Rinv_le_contravar; lra. }
  assert (Hq : 0 <= 0.387 * rpow Ra (1 / 6) / cc_den <= 0.387 * 33).
  { unfold Rdiv. split; nra. }
  nra.
Qed.

Lemma zukauskas_threshold_ge : 191 <= zukauskas 1e5.
Proof.
  unfold zukauskas, zukauskas_C, zukauskas_m.
  destruct (Rlt_dec 1e5 1e5) as [H|_]; [lra|].
  rewrite rpow_pos by lra.
  assert (HA : 10 ^ 4 <= Rpower 1e5 0.805).
  { rewrite <- (Rpower_root (10 ^ 4) 5) by (lra || lia).
    replace (INR 5) with 5 by (simpl; lra).
    replace ((10 ^ 4) ^ 5) with (1e5 ^ 4) by lra.
    rewrite <- (Rpower_pow 4 1e5) by lra. rewrite Rpower_mult.
    apply Rle_Rpower; [lra|]. simpl. lra. }
  pose proof (Rpower_base_lt1 PR_AIR 0.37 ltac:(unfold PR_AIR; lra) ltac:(lra))
    as HP.
  unfold PR_AIR in *. nra.
Qed.

(** On the default tube in the default air the coefficient at every wind
    speed up to 5 % below the threshold is more than 2 % above the
    coefficient at the threshold. *)
Lemma h_formula_step_default (v : R) :
  0.95 * threshold_wind 0.428 <= v < threshold_wind 0.428 ->
  1.02 * h_formula (with_wind default_ambient (threshold_wind 0.428)) 0.428
  <= h_formula (with_wind default_ambient v) 0.428.
Proof.
  intros Hv. assert (HD : 0 < 0.428) by lra.
  unfold h_formula, Nu_mixed, Nu_forced.
  rewrite !Nu_natural_with_wind, reynolds_threshold by assumption.
  set (a := Nu_natural default_ambient 0.428).
  assert (Ha : 0 < a) by apply churchill_chu_pos.
  pose proof Nu_natural_default as Ha185. fold a in Ha185.
  pose proof zukauskas_threshold_ge as H191.
  pose proof zukauskas_step_ratio as Hr.
  pose proof (zukauskas_ge_below _
                (reynolds_near_threshold default_ambient 0.428 HD v Hv)) as Hge.
  pose proof (power_mean3_ratio a (zukauskas 1e5) _ ltac:(lra)
                (Rle_trans _ _ _ Hr Hge)) as Hpm.
  assert (HK : 0 < K_AIR / 0.428)
    by (unfold K_AIR; apply Rdiv_lt_0_compat; lra).
  unfold Rdiv in *. nra.
Qed.

(** * The claims of the specification *)

(** ** FinTubeGeometry *)

(** C1, as the code has it: the area per metre of tube is the bare-tube
    circumference plus the fin efficiency times the lateral area of all the
    fins, where each fin contributes 2 x the BARE-TUBE circumference x the
    fin height (not the circumference at the fin radius). *)
Theorem area_per_meter_bare_circumference (g : FinTubeGeometry) :
  area_per_meter g =
  bare_circumference g +
  fin_efficiency g *
  (IZR (fins_per_tube g) *
   (2 * bare_circumference g * (fin_height_mm g / 1000))).
Proof. unfold area_per_meter, bare_circumference. field. Qed.

(** C1 as stated fails on the default geometry (28 mm tube, 200 mm fins, 12
    fins, efficiency 0.85): the code's area is strictly below the area built
    on the circumference at the fin radius. *)
Lemma area_per_meter_not_fin_tip :
  area_per_meter default_geom <> area_per_meter_spec default_geom /\
  area_per_meter default_geom < area_per_meter_spec default_geom.
Proof.
  assert (H : area_per_meter default_geom < area_per_meter_spec default_geom).
  { unfold area_per_meter, area_per_meter_spec, bare_circumference,
      fin_tip_circumference, default_geom; simpl.
    pose proof PI_RGT_0. lra. }
  split; [lra|exact H].
Qed.

(** C8, as the code has it: on a valid geometry the area per metre grows
    strictly with the fin height as soon as there is one fin, and strictly
    with the fin count as soon as the fins have a positive height. *)
Theorem area_per_meter_strictly_increasing (g : FinTubeGeometry) :
  valid_geometry g ->
  (forall h' : R, (1 <= fins_per_tube g)%Z -> fin_height_mm g < h' ->
     area_per_meter g < area_per_meter (with_fin_height g h')) /\
  (forall n' : Z, 0 < fin_height_mm g -> (fins_per_tube g < n')%Z ->
     area_per_meter g < area_per_meter (with_fins g n')).
Proof.
  intros (Hd & Hh & Hn & He & _). pose proof PI_RGT_0 as Hpi.
  assert (Hc : 0 < PI * (tube_od_mm g / 1000)) by (apply Rmult_lt_0_compat; lra).
  split.
  - intros h' Hn1 Hlt. rewrite !area_per_meter_factored. simpl.
    apply Rmult_lt_compat_l; [exact Hc|].
    apply IZR_le in Hn1.
    assert (0 < fin_efficiency g * IZR (fins_per_tube g))
      by (apply Rmult_lt_0_compat; lra).
    nra.
  - intros n' Hh0 Hlt. rewrite !area_per_meter_factored. simpl.
    apply Rmult_lt_compat_l; [exact Hc|].
    apply IZR_lt in Hlt.
    assert (0 < fin_efficiency g * (2 * fin_height_mm g / 1000))
      by (apply Rmult_lt_0_compat; lra).
    nra.
Qed.

Lemma area_per_meter_strictly_increasing_witness :
  area_per_meter default_geom < area_per_meter (with_fin_height default_geom 300)
  /\ area_per_meter default_geom < area_per_meter (with_fins default_geom 16).
Proof.
  assert (V : valid_geometry default_geom).
  { unfold valid_geometry; simpl. repeat split; lra || lia. }
  destruct (area_per_meter_strictly_increasing default_geom V) as [Hh Hn].
  split.
  - apply Hh; simpl; [lia|lra].
  - apply Hn; simpl; [lra|lia].
Defined.

(** C8 as stated fails at the edge of the valid range: with no fin at all a
    taller fin changes nothing, and with fins of height zero one more fin
    changes nothing. *)
Lemma area_per_meter_not_strict_at_edge :
  let g0 := mkFinTubeGeometry 28 200 0 0.85 in
  let g1 := mkFinTubeGeometry 28 0 12 0.85 in
  valid_geometry g0 /\ valid_geometry (with_fin_height g0 300) /\
  fin_height_mm g0 < 300 /\
  ~ area_per_meter g0 < area_per_meter (with_fin_height g0 300) /\
  valid_geometry g1 /\ valid_geometry (with_fins g1 13) /\
  (fins_per_tube g1 < 13)%Z /\
  ~ area_per_meter g1 < area_per_meter (with_fins g1 13).
Proof.
  unfold valid_geometry, area_per_meter; simpl.
  repeat split; try lra; try lia; intros H; lra.
Qed.

(** ** AmbientConditions *)

(** C2: [h_coefficient] evaluates Nu_mix x k_air / D_h, with Nu_mix the cube
    root of Nu_natural^3 + Nu_forced^3, Nu_natural the Churchill-Chu
    correlation at Ra = Gr x Pr, and Nu_forced = C x Re^m x Pr^0.37 with
    (C, m) switching at Re = 1e5: in Python's arithmetic for every ambient
    state, and as a real number given by the formula when the air is not
    colder than -160 C and the wind speed is not negative. *)
Theorem h_coefficient_formula (amb : AmbientConditions) (D_h : R) :
  0 < D_h ->
  h_coefficient amb D_h = h_formula_py amb D_h /\
  (above_reference amb -> valid_ambient amb ->
   h_coefficient amb D_h = Ok (PyFloat (Nu_mixed amb D_h * K_AIR / D_h)) /\
   Nu_mixed amb D_h =
     rpow (Nu_natural amb D_h ^ 3 + Nu_forced amb D_h ^ 3) (1 / 3) /\
   Nu_natural amb D_h = churchill_chu (grashof amb D_h * PR_AIR) /\
   Nu_forced amb D_h =
     (if Rlt_dec (reynolds amb D_h) 1e5
      then 0.3 * rpow (reynolds amb D_h) 0.62
      else 0.027 * rpow (reynolds amb D_h) 0.805) * Rpower PR_AIR 0.37).
Proof.
  intros HD. split; [apply h_coefficient_stages|].
  intros HT Hv. split; [|split; [|split]].
  - apply h_coefficient_real; assumption.
  - reflexivity.
  - reflexivity.
  - unfold Nu_forced, zukauskas, zukauskas_C, zukauskas_m.
    destruct (Rlt_dec (reynolds amb D_h) 1e5); reflexivity.
Qed.

Lemma h_coefficient_formula_witness :
  h_coefficient default_ambient 0.428 =
  Ok (PyFloat (Nu_mixed default_ambient 0.428 * K_AIR / 0.428)).
Proof.
  assert (HD : 0 < 0.428) by lra.
  destruct (h_coefficient_formula default_ambient 0.428 HD) as [_ H].
  apply H.
  - unfold above_reference; simpl. lra.
  - unfold valid_ambient; simpl. lra.
Defined.

(** C3, as the code has it: the blend does not smooth the switch of the
    correlation constants.  For every air temperature not below -160 C and
    every positive diameter there is a gap that separates the coefficient at
    the wind speed where Re = 1e5 from the coefficient at every wind speed
    up to 5 % below it: the coefficient drops there. *)
Theorem h_coefficient_drops_at_threshold (amb : AmbientConditions) (D_h : R) :
  above_reference amb -> 0 < D_h ->
  exists eps h0, 0 < eps /\
    h_coefficient (with_wind amb (threshold_wind D_h)) D_h = Ok (PyFloat h0) /\
    forall v, 0.95 * threshold_wind D_h <= v < threshold_wind D_h ->
      exists h, h_coefficient (with_wind amb v) D_h = Ok (PyFloat h) /\
                h0 + eps <= h.
Proof. exact (h_coefficient_gap amb D_h). Qed.

Lemma h_coefficient_drops_at_threshold_witness :
  exists eps h0, 0 < eps /\
    h_coefficient (with_wind default_ambient (threshold_wind 0.428)) 0.428
    = Ok (PyFloat h0) /\
    forall v, 0.95 * threshold_wind 0.428 <= v < threshold_wind 0.428 ->
      exists h, h_coefficient (with_wind default_ambient v) 0.428
                = Ok (PyFloat h) /\ h0 + eps <= h.
Proof.
  apply (h_coefficient_drops_at_threshold default_ambient 0.428).
  - unfold above_reference; simpl. lra.
  - lra.
Defined.

(** C3 as stated fails for the default air (15 C) on the default tube
    (finned diameter 0.428 m): as a function of the wind speed the
    coefficient is not continuous at the speed 1.8 / 0.428 m/s where
    Re = 1e5, and the jump is no rounding matter: at 4.2 m/s, and at every
    other speed up to 5 % below the threshold, the coefficient is more than
    2 % above its value at the threshold. *)
Lemma h_coefficient_not_continuous_default :
  threshold_wind 0.428 = 1.8 / 0.428 /\
  ~ continuity_pt (fun v => h_value (mkAmbientConditions 15 v) 0.428)
                  (1.8 / 0.428) /\
  1.02 * h_value (mkAmbientConditions 15 (1.8 / 0.428)) 0.428
  <= h_value (mkAmbientConditions 15 4.2) 0.428 /\
  (forall v, 0.95 * (1.8 / 0.428) <= v < 1.8 / 0.428 ->
     1.02 * h_value (mkAmbientConditions 15 (1.8 / 0.428)) 0.428
     <= h_value (mkAmbientConditions 15 v) 0.428).
Proof.
  assert (Ht : threshold_wind 0.428 = 1.8 / 0.428).
  { unfold threshold_wind, MU_AIR, RHO_GNG. lra. }
  assert (Hstep : forall v, 0.95 * (1.8 / 0.428) <= v < 1.8 / 0.428 ->
            1.02 * h_value (mkAmbientConditions 15 (1.8 / 0.428)) 0.428
            <= h_value (mkAmbientConditions 15 v) 0.428).
  { intros v Hv. rewrite <- Ht in *.
    pose proof (threshold_wind_pos 0.428 ltac:(lra)) as H0.
    rewrite !h_value_real by (simpl; lra).
    apply (h_formula_step_default v Hv). }
  split; [exact Ht|]. split; [|split].
  - rewrite <- Ht. apply (h_value_not_continuous default_ambient 0.428).
    + unfold above_reference; simpl. lra.
    + lra.
  - apply Hstep. lra.
  - exact Hstep.
Qed.

(** C9, as the code has it: a zero diameter ends in Python's own
    [ZeroDivisionError], raised by the last division; every other diameter
    returns a value, and a negative one in air warmer than -160 C returns a
    complex number instead of raising. *)
Theorem h_coefficient_errors (amb : AmbientConditions) (D_h : R) :
  (D_h = 0 -> h_coefficient amb D_h = Raise ZeroDivisionError) /\
  (D_h <> 0 -> exists v, h_coefficient amb D_h = Ok v) /\
  (D_h < 0 -> -160 < T_air amb ->
   exists re im, h_coefficient amb D_h = Ok (PyComplex re im)).
Proof.
  split; [|split].
  - intros ->. apply h_coefficient_zero_diameter.
  - apply h_coefficient_total.
  - intros HD HT. apply h_coefficient_complex; [|lra].
    apply rayleigh_negative_diameter; assumption.
Qed.

Lemma h_coefficient_errors_witness :
  h_coefficient default_ambient 0 = Raise ZeroDivisionError /\
  (exists v, h_coefficient default_ambient 0.428 = Ok v) /\
  (exists re im, h_coefficient default_ambient (-0.1) = Ok (PyComplex re im)).
Proof.
  split; [|split].
  - apply (h_coefficient_errors default_ambient 0). reflexivity.
  - apply (h_coefficient_errors default_ambient 0.428). lra.
  - apply (h_coefficient_errors default_ambient (-0.1)); simpl; lra.
Defined.

(** C9 as stated fails at D_h = -0.1 in the default air: nothing is raised,
    the call returns a complex number. *)
Lemma h_coefficient_negative_diameter_returns :
  (exists re im, h_coefficient default_ambient (-0.1) = Ok (PyComplex re im)) /\
  ~ (exists e, h_coefficient default_ambient (-0.1) = Raise e).
Proof.
  assert (H : exists re im,
             h_coefficient default_ambient (-0.1) = Ok (PyComplex re im)).
  { apply h_coefficient_complex; [|lra].
    apply rayleigh_negative_diameter; simpl; lra. }
  split; [exact H|].
  destruct H as (re & im & E). intros [e He]. congruence.
Qed.

(** ** ModuleConfig *)

(** C7: the footprint is (tubes_x - 1) x spacing_x + diameter by
    (tubes_y - 1) x spacing_y + diameter, and the footprint a summary
    reports is that footprint, rounded to whole millimetres, at the finned
    outer diameter tube_od + 2 x fin_height; valid inputs do get a summary. *)
Theorem footprint_at_finned_diameter :
  (forall (m : ModuleConfig) (d : R),
     footprint_mm m d =
     ((IZR (tubes_x m) - 1) * spacing_x_mm m + d,
      (IZR (tubes_y m) - 1) * spacing_y_mm m + d)) /\
  (forall (g : Gasifier) (s : Summary),
     summary g = Ok s ->
     let d := tube_od_mm (geom g) + 2 * fin_height_mm (geom g) in
     fp_x (s_footprint_mm s) = round_half_even (fst (footprint_mm (module g) d)) /\
     fp_y (s_footprint_mm s) = round_half_even (snd (footprint_mm (module g) d)) /\
     fp_z (s_footprint_mm s) = tube_length_mm g) /\
  (forall g : Gasifier,
     valid_gasifier g -> above_reference (ambient g) ->
     exists s, summary g = Ok s).
Proof.
  split; [|split].
  - intros m d. unfold footprint_mm. rewrite !minus_IZR. reflexivity.
  - intros g s Hs d. rewrite (summary_footprint g s Hs). subst d.
    repeat split; reflexivity.
  - apply summary_returns.
Qed.

Lemma footprint_at_finned_diameter_witness :
  exists s, summary default_gasifier = Ok s /\
            fp_x (s_footprint_mm s) = 2148%Z /\
            fp_y (s_footprint_mm s) = 2528%Z /\
            fp_z (s_footprint_mm s) = 4600.
Proof.
  destruct footprint_at_finned_diameter as (Hf & Hs & Hex).
  destruct (Hex default_gasifier) as [s E].
  - unfold valid_gasifier, valid_geometry, valid_module, valid_ambient; simpl.
    repeat split; lra || lia.
  - unfold above_reference; simpl. lra.
  - exists s. split; [exact E|].
    destruct (Hs default_gasifier s E) as (Hx & Hy & Hz).
    rewrite Hx, Hy, Hz, Hf. simpl.
    replace ((9 - 1) * 215 + (28 + 2 * 200)) with (IZR 2148) by lra.
    replace ((8 - 1) * 300 + (28 + 2 * 200)) with (IZR 2528) by lra.
    rewrite !round_half_even_IZR. repeat split; reflexivity.
Defined.

(** ** Gasifier *)

(** C4: with valid inputs the steady capacity is the flow of the contract:
    D_h the finned diameter, U = h(D_h), per-tube area = area per metre x
    tube length, Q = U x area x (T_air + 160), mass flow = Q / latent heat,
    total = mass flow x tube count x 3600 / 0.693. *)
Theorem capacity_steady_formula_ok (g : Gasifier) :
  valid_gasifier g -> above_reference (ambient g) ->
  let D_h := (tube_od_mm (geom g) + 2 * fin_height_mm (geom g)) / 1000 in
  let U := h_formula (ambient g) D_h in
  let A_per_tube := area_per_meter (geom g) * (tube_length_mm g / 1000) in
  let Q := U * A_per_tube * (T_air (ambient g) - (-160)) in
  let m_dot := Q / LATENT in
  h_coefficient (ambient g) D_h = Ok (PyFloat U) /\
  capacity g "steady" =
  Ok (PyFloat (m_dot * IZR (n_tubes (module g)) * 3600 / 0.693)).
Proof.
  intros Hv HT. cbv zeta. split.
  - apply (h_coefficient_gasifier g Hv HT).
  - apply (capacity_steady_real g Hv HT).
Qed.

Lemma capacity_steady_formula_ok_witness :
  capacity default_gasifier "steady" =
  Ok (PyFloat (h_formula default_ambient 0.428
               * (area_per_meter default_geom * 4.6) * 175 / LATENT
               * 72 * 3600 / 0.693)).
Proof.
  assert (Hv : valid_gasifier default_gasifier).
  { unfold valid_gasifier, valid_geometry, valid_module, valid_ambient; simpl.
    repeat split; lra || lia. }
  assert (HT : above_reference (ambient default_gasifier)).
  { unfold above_reference; simpl. lra. }
  destruct (capacity_steady_formula_ok default_gasifier Hv HT) as [_ H].
  rewrite H. simpl.
  replace ((28 + 2 * 200) / 1000) with 0.428 by lra.
  replace (4600 / 1000) with 4.6 by lra.
  replace (15 - -160) with 175 by lra.
  reflexivity.
Defined.

(** C5: on identical valid inputs the cold-start capacity is exactly 0.5 x
    the steady capacity; the time constant the cold-start branch computes
    has no part in the value. *)
Theorem capacity_cold_start_is_half (g : Gasifier) :
  valid_gasifier g ->
  exists f, capacity g "steady" = Ok f /\
            capacity g "cold-start" = Ok (pmul (PyFloat 0.5) f).
Proof. exact (capacity_cold_start_half g). Qed.

Lemma capacity_cold_start_is_half_witness :
  exists f, capacity default_gasifier "steady" = Ok f /\
            capacity default_gasifier "cold-start" = Ok (pmul (PyFloat 0.5) f).
Proof.
  apply (capacity_cold_start_is_half default_gasifier).
  unfold valid_gasifier, valid_geometry, valid_module, valid_ambient; simpl.
  repeat split; lra || lia.
Defined.

(** C6: with valid inputs the thermal time constant, in hours, is
    Cth / (h x total exposed area) / 3600 with Cth = aluminium mass x 900 and
    aluminium mass = exposed area of a tube x 0.002 m x 2700 kg/m3 x tube
    count, h being the coefficient at the finned diameter. *)
Theorem thermal_time_constant_formula_ok (g : Gasifier) :
  valid_gasifier g -> above_reference (ambient g) ->
  let D_h := (tube_od_mm (geom g) + 2 * fin_height_mm (geom g)) / 1000 in
  let h := h_formula (ambient g) D_h in
  let area_per_tube := area_per_meter (geom g) * (tube_length_mm g / 1000) in
  let n := IZR (n_tubes (module g)) in
  let mass_Al := area_per_tube * 0.002 * 2700 * n in
  let Cth := mass_Al * 900 in
  h_coefficient (ambient g) D_h = Ok (PyFloat h) /\
  thermal_time_constant g = Ok (PyFloat (Cth / (h * (area_per_tube * n)) / 3600)).
Proof.
  intros Hv HT. cbv zeta. split.
  - apply (h_coefficient_gasifier g Hv HT).
  - apply (thermal_time_constant_real g Hv HT).
Qed.

Lemma thermal_time_constant_formula_ok_witness :
  thermal_time_constant default_gasifier =
  Ok (PyFloat (area_per_meter default_geom * 4.6 * 0.002 * 2700 * 72 * 900
               / (h_formula default_ambient 0.428
                  * (area_per_meter default_geom * 4.6 * 72))
               / 3600)).
Proof.
  assert (Hv : valid_gasifier default_gasifier).
  { unfold valid_gasifier, valid_geometry, valid_module, valid_ambient; simpl.
    repeat split; lra || lia. }
  assert (HT : above_reference (ambient default_gasifier)).
  { unfold above_reference; simpl. lra. }
  destruct (thermal_time_constant_formula_ok default_gasifier Hv HT) as [_ H].
  rewrite H. simpl.
  replace ((28 + 2 * 200) / 1000) with 0.428 by lra.
  replace (4600 / 1000) with 4.6 by lra.
  reflexivity.
Defined.

(** C10: with valid inputs the time constant is
    (2700 x 0.002 x 900) / (3600 x h_coefficient(D_h)): the exposed area
    cancels, so two valid banks with the same finned diameter in the same
    air have the same time constant, whatever their tube counts, tube
    lengths, fin counts and fin efficiencies. *)
Theorem thermal_time_constant_area_free (g1 g2 : Gasifier) :
  valid_gasifier g1 -> valid_gasifier g2 ->
  finned_diameter_m (geom g1) = finned_diameter_m (geom g2) ->
  ambient g1 = ambient g2 ->
  exists h tau,
    h_coefficient (ambient g1) (finned_diameter_m (geom g1)) = Ok h /\
    pdiv (PyFloat (2700 * 0.002 * 900)) (pmul (PyFloat 3600) h) = Ok tau /\
    thermal_time_constant g1 = Ok tau /\
    thermal_time_constant g2 = Ok tau.
Proof.
  intros H1 H2 HD Ha.
  destruct (thermal_time_constant_cancels g1 H1) as (h & tau & Eh & E1 & Ef).
  destruct (thermal_time_constant_cancels g2 H2) as (h' & tau' & Eh' & E2 & Ef').
  rewrite <- HD, <- Ha, Eh in Eh'. injection Eh' as <-.
  rewrite Ef in Ef'. injection Ef' as <-.
  exists h, tau. repeat split; assumption.
Qed.

Lemma thermal_time_constant_area_free_witness :
  exists h tau,
    h_coefficient default_ambient (finned_diameter_m default_geom) = Ok h /\
    pdiv (PyFloat (2700 * 0.002 * 900)) (pmul (PyFloat 3600) h) = Ok tau /\
    thermal_time_constant default_gasifier = Ok tau /\
    thermal_time_constant example_gasifier = Ok tau.
Proof.
  apply (thermal_time_constant_area_free default_gasifier example_gasifier).
  - unfold valid_gasifier, valid_geometry, valid_module, valid_ambient; simpl.
    repeat split; lra || lia.
  - unfold valid_gasifier, valid_geometry, valid_module, valid_ambient; simpl.
    repeat split; lra || lia.
  - reflexivity.
  - reflexivity.
Defined.

(** * Further properties of the code *)

(** ** More facts about the arithmetic *)

Lemma rpow_le (x y c : R) : 0 <= x <= y -> 0 < c -> rpow x c <= rpow y c.
Proof.
  intros [Hx Hxy] Hc. unfold rpow.
  destruct (Req_dec_T x 0) as [Ex|Nx]; destruct (Req_dec_T y 0) as [Ey|Ny].
  - lra.
  - left. apply Rpower_pos.
  - lra.
  - apply Rle_Rpower_l; lra.
Qed.

Lemma churchill_chu_le (r1 r2 : R) :
  0 <= r1 <= r2 -> churchill_chu r1 <= churchill_chu r2.
Proof.
  intros H. unfold churchill_chu. fold cc_den.
  pose proof (rpow_le r1 r2 (1 / 6) H ltac:(lra)) as Hr.
  pose proof (rpow_nonneg r1 (1 / 6)) as H0.
  pose proof cc_den_pos as Hd.
  assert (Hinv : 0 < / cc_den) by (apply Rinv_0_lt_compat; exact Hd).
  assert (Hq : 0 <= 0.387 * rpow r1 (1 / 6) / cc_den
               <= 0.387 * rpow r2 (1 / 6) / cc_den).
  { unfold Rdiv. split; nra. }
  apply pow_incr. lra.
Qed.

Lemma zukauskas_zero : zukauskas 0 = 0.
Proof.
  unfold zukauskas, rpow.
  destruct (Req_dec_T 0 0) as [_|N]; [ring|congruence].
Qed.

Lemma zukauskas_le (r1 r2 : R) :
  0 <= r1 <= r2 -> r2 < 1e5 \/ 1e5 <= r1 -> zukauskas r1 <= zukauskas r2.
Proof.
  intros [H1 H12] Hside. unfold zukauskas, zukauskas_C, zukauskas_m.
  pose proof (Rpower_pos PR_AIR 0.37) as HP.
  destruct (Rlt_dec r1 1e5) as [L1|L1]; destruct (Rlt_dec r2 1e5) as [L2|L2];
    try lra.
  - pose proof (rpow_le r1 r2 0.62 ltac:(lra) ltac:(lra)).
    pose proof (rpow_nonneg r1 0.62). nra.
  - pose proof (rpow_le r1 r2 0.805 ltac:(lra) ltac:(lra)).
    pose proof (rpow_nonneg r1 0.805). nra.
Qed.

Lemma power_mean3_zero (a : R) : 0 < a -> power_mean3 a 0 = a.
Proof.
  intros Ha. unfold power_mean3.
  replace (a ^ 3 + 0 ^ 3) with (a ^ 3) by ring.
  rewrite rpow_pos by (apply pow_lt; exact Ha).
  rewrite <- INR_3. apply Rpower_root; [exact Ha|lia].
Qed.

Lemma power_mean3_le_l (a b x : R) :
  0 < a <= b -> 0 <= x -> power_mean3 a x <= power_mean3 b x.
Proof.
  intros [Ha Hab] Hx. unfold power_mean3.
  pose proof (cube_sum_pos a x Ha Hx).
  pose proof (cube_le a b (Rlt_le _ _ Ha) Hab).
  rewrite !rpow_pos by lra.
  apply Rle_Rpower_l; lra.
Qed.

Lemma Nu_mixed_ge_natural (amb : AmbientConditions) (D_h : R) :
  Nu_natural amb D_h <= Nu_mixed amb D_h.
Proof.
  unfold Nu_mixed.
  pose proof (churchill_chu_pos (rayleigh amb D_h)) as Ha.
  fold (Nu_natural amb D_h) in Ha.
  rewrite <- (power_mean3_zero (Nu_natural amb D_h) Ha) at 1.
  apply power_mean3_le; [exact Ha|lra|apply zukauskas_nonneg].
Qed.

Lemma rayleigh_le (amb : AmbientConditions) (D_h T1 T2 : R) :
  0 <= D_h -> T1 <= T2 ->
  rayleigh (with_T_air amb T1) D_h <= rayleigh (with_T_air amb T2) D_h.
Proof.
  intros HD HT. unfold rayleigh, grashof, with_T_air, PR_AIR; cbn [T_air].
  assert (H3 : 0 <= D_h ^ 3 / MU_AIR ^ 2).
  { apply Rmult_le_pos; [apply pow_le; exact HD|].
    left. apply Rinv_0_lt_compat, pow_lt, MU_AIR_pos. }
  apply Rmult_le_compat_r; [lra|].
  apply Rmult_le_compat_r; [exact H3|]. lra.
Qed.

Lemma h_formula_still_air (amb : AmbientConditions) (D_h : R) :
  v_wind amb = 0 -> h_formula amb D_h = h_natural amb D_h.
Proof.
  intros Hv. unfold h_formula, h_natural, Nu_mixed, Nu_forced, reynolds.
  rewrite Hv.
  replace (RHO_GNG * 0 * D_h / MU_AIR) with 0 by (unfold Rdiv; ring).
  rewrite zukauskas_zero, power_mean3_zero by apply churchill_chu_pos.
  reflexivity.
Qed.

Lemma h_natural_bounds (amb : AmbientConditions) (D_h : R) :
  0 < D_h ->
  0 < 0.825 ^ 2 * K_AIR / D_h <= h_natural amb D_h /\
  h_natural amb D_h <= h_formula amb D_h.
Proof.
  intros HD. unfold h_natural, h_formula.
  pose proof (churchill_chu_ge (rayleigh amb D_h)) as Hge.
  fold (Nu_natural amb D_h) in Hge.
  pose proof (Nu_mixed_ge_natural amb D_h) as Hmix.
  assert (HK : 0 < K_AIR / D_h)
    by (unfold K_AIR; apply Rdiv_lt_0_compat; lra).
  unfold Rdiv in *. repeat split; nra.
Qed.

Lemma reynolds_with_wind_le (amb : AmbientConditions) (D_h v1 v2 : R) :
  0 < D_h -> v1 <= v2 ->
  reynolds (with_wind amb v1) D_h <= reynolds (with_wind amb v2) D_h.
Proof.
  intros HD Hv. rewrite !reynolds_with_wind.
  assert (Hk : 0 < D_h / MU_AIR)
    by (apply Rdiv_lt_0_compat; [lra|apply MU_AIR_pos]).
  unfold Rdiv in *. nra.
Qed.

Lemma reynolds_vs_threshold (amb : AmbientConditions) (D_h v : R) :
  0 < D_h ->
  (v < threshold_wind D_h -> reynolds (with_wind amb v) D_h < 1e5) /\
  (threshold_wind D_h <= v -> 1e5 <= reynolds (with_wind amb v) D_h).
Proof.
  intros HD. rewrite reynolds_with_wind.
  assert (Hk : 0 < D_h / MU_AIR)
    by (apply Rdiv_lt_0_compat; [lra|apply MU_AIR_pos]).
  pose proof (threshold_wind_scaled D_h HD) as Ht.
  replace (v * D_h / MU_AIR) with (v * (D_h / MU_AIR)) by (unfold Rdiv; ring).
  split; intros Hv; nra.
Qed.

Lemma h_formula_wind_le (amb : AmbientConditions) (D_h v1 v2 : R) :
  0 < D_h -> 0 <= v1 <= v2 ->
  v2 < threshold_wind D_h \/ threshold_wind D_h <= v1 ->
  h_formula (with_wind amb v1) D_h <= h_formula (with_wind amb v2) D_h.
Proof.
  intros HD [H1 H12] Hside. unfold h_formula, Nu_mixed, Nu_forced.
  rewrite !Nu_natural_with_wind.
  pose proof (churchill_chu_pos (rayleigh amb D_h)) as Ha.
  fold (Nu_natural amb D_h) in Ha.
  assert (Hz : zukauskas (reynolds (with_wind amb v1) D_h)
               <= zukauskas (reynolds (with_wind amb v2) D_h)).
  { apply zukauskas_le.
    - split; [apply reynolds_nonneg; simpl; lra|].
      apply reynolds_with_wind_le; assumption.
    - destruct Hside as [Hlo|Hhi]; [left|right];
        apply (reynolds_vs_threshold amb D_h _ HD); assumption. }
  pose proof (power_mean3_le (Nu_natural amb D_h) _ _ Ha
                (zukauskas_nonneg _) Hz) as Hpm.
  assert (HK : 0 < K_AIR / D_h)
    by (unfold K_AIR; apply Rdiv_lt_0_compat; lra).
  unfold Rdiv in *. nra.
Qed.

Lemma h_formula_T_air_le (amb : AmbientConditions) (D_h T1 T2 : R) :
  0 < D_h -> -160 <= T1 <= T2 ->
  h_formula (with_T_air amb T1) D_h <= h_formula (with_T_air amb T2) D_h.
Proof.
  intros HD [H1 H12]. unfold h_formula, Nu_mixed, Nu_forced, Nu_natural.
  change (reynolds (with_T_air amb T1) D_h) with (reynolds amb D_h).
  change (reynolds (with_T_air amb T2) D_h) with (reynolds amb D_h).
  assert (Hcc : churchill_chu (rayleigh (with_T_air amb T1) D_h)
                <= churchill_chu (rayleigh (with_T_air amb T2) D_h)).
  { apply churchill_chu_le. split.
    - apply rayleigh_nonneg; simpl; lra.
    - apply rayleigh_le; lra. }
  pose proof (power_mean3_le_l _ _ (zukauskas (reynolds amb D_h))
                (conj (churchill_chu_pos _) Hcc) (zukauskas_nonneg _)) as Hpm.
  assert (HK : 0 < K_AIR / D_h)
    by (unfold K_AIR; apply Rdiv_lt_0_compat; lra).
  unfold Rdiv in *. nra.
Qed.

(** ** AmbientConditions: further properties *)

(** X1: in still air (wind speed 0) above the reference temperature the
    forced term vanishes and the coefficient is that of natural convection
    alone, Nu_natural x k_air / D_h. *)
Theorem h_coefficient_still_air (amb : AmbientConditions) (D_h : R) :
  0 < D_h -> above_reference amb -> v_wind amb = 0 ->
  h_coefficient amb D_h =
  Ok (PyFloat (churchill_chu (rayleigh amb D_h) * K_AIR / D_h)).
Proof.
  intros HD HT Hv.
  rewrite h_coefficient_real by (assumption || lra).
  rewrite h_formula_still_air by exact Hv. reflexivity.
Qed.

Lemma h_coefficient_still_air_witness :
  h_coefficient (mkAmbientConditions 15 0) 0.428 =
  Ok (PyFloat (churchill_chu (rayleigh (mkAmbientConditions 15 0) 0.428)
               * K_AIR / 0.428)).
Proof.
  apply (h_coefficient_still_air (mkAmbientConditions 15 0) 0.428).
  - lra.
  - unfold above_reference; simpl. lra.
  - reflexivity.
Defined.

(** X2: wind never lowers the coefficient below its still-air value, and
    the still-air value is at least 0.825^2 x k_air / D_h: on the physical
    domain the coefficient is a strictly positive float. *)
Theorem h_coefficient_wind_never_lowers (amb : AmbientConditions) (D_h : R) :
  0 < D_h -> above_reference amb -> valid_ambient amb ->
  exists h h0,
    h_coefficient amb D_h = Ok (PyFloat h) /\
    h_coefficient (with_wind amb 0) D_h = Ok (PyFloat h0) /\
    0 < 0.825 ^ 2 * K_AIR / D_h <= h0 /\ h0 <= h.
Proof.
  intros HD HT Hv.
  exists (h_formula amb D_h), (h_formula (with_wind amb 0) D_h).
  split; [apply h_coefficient_real; assumption|].
  split; [apply h_coefficient_real; [assumption|exact HT|simpl; lra]|].
  rewrite (h_formula_still_air (with_wind amb 0)) by reflexivity.
  change (h_natural (with_wind amb 0) D_h) with (h_natural amb D_h).
  destruct (h_natural_bounds amb D_h HD) as [Hlo Hhi].
  split; assumption.
Qed.

Lemma h_coefficient_wind_never_lowers_witness :
  exists h h0,
    h_coefficient default_ambient 0.428 = Ok (PyFloat h) /\
    h_coefficient (mkAmbientConditions 15 0) 0.428 = Ok (PyFloat h0) /\
    0 < 0.825 ^ 2 * K_AIR / 0.428 <= h0 /\ h0 <= h.
Proof.
  apply (h_coefficient_wind_never_lowers default_ambient 0.428).
  - lra.
  - unfold above_reference; simpl. lra.
  - unfold valid_ambient; simpl. lra.
Defined.

(** X3: as long as two wind speeds lie on the same side of the speed where
    Re = 1e5, the higher one gives the higher (or equal) coefficient. *)
Theorem h_coefficient_increasing_in_wind
    (amb : AmbientConditions) (D_h v1 v2 : R) :
  0 < D_h -> above_reference amb -> 0 <= v1 <= v2 ->
  v2 < threshold_wind D_h \/ threshold_wind D_h <= v1 ->
  exists h1 h2,
    h_coefficient (with_wind amb v1) D_h = Ok (PyFloat h1) /\
    h_coefficient (with_wind amb v2) D_h = Ok (PyFloat h2) /\
    h1 <= h2.
Proof.
  intros HD HT Hv Hside.
  exists (h_formula (with_wind amb v1) D_h), (h_formula (with_wind amb v2) D_h).
  split; [apply h_coefficient_real; [assumption|exact HT|simpl; lra]|].
  split; [apply h_coefficient_real; [assumption|exact HT|simpl; lra]|].
  apply h_formula_wind_le; assumption.
Qed.

Lemma h_coefficient_increasing_in_wind_witness :
  exists h1 h2,
    h_coefficient (mkAmbientConditions 15 0.5) 0.428 = Ok (PyFloat h1) /\
    h_coefficient (mkAmbientConditions 15 2) 0.428 = Ok (PyFloat h2) /\
    h1 <= h2.
Proof.
  apply (h_coefficient_increasing_in_wind default_ambient 0.428 0.5 2).
  - lra.
  - unfold above_reference; simpl. lra.
  - lra.
  - left. unfold threshold_wind, MU_AIR, RHO_GNG. lra.
Defined.

(** X4: warmer air gives a higher (or equal) coefficient: for air
    temperatures not below -160 C the coefficient is non-decreasing in the
    air temperature, the diameter and the wind being fixed. *)
Theorem h_coefficient_increasing_in_air_temperature
    (amb : AmbientConditions) (D_h T1 T2 : R) :
  0 < D_h -> valid_ambient amb -> -160 <= T1 <= T2 ->
  exists h1 h2,
    h_coefficient (with_T_air amb T1) D_h = Ok (PyFloat h1) /\
    h_coefficient (with_T_air amb T2) D_h = Ok (PyFloat h2) /\
    h1 <= h2.
Proof.
  intros HD Hv HT.
  exists (h_formula (with_T_air amb T1) D_h), (h_formula (with_T_air amb T2) D_h).
  split; [apply h_coefficient_real; [assumption|simpl; lra|exact Hv]|].
  split; [apply h_coefficient_real; [assumption|simpl; lra|exact Hv]|].
  apply h_formula_T_air_le; assumption.
Qed.

Lemma h_coefficient_increasing_in_air_temperature_witness :
  exists h1 h2,
    h_coefficient (mkAmbientConditions (-20) 0.5) 0.428 = Ok (PyFloat h1) /\
    h_coefficient (mkAmbientConditions 40 0.5) 0.428 = Ok (PyFloat h2) /\
    h1 <= h2.
Proof.
  apply (h_coefficient_increasing_in_air_temperature
           default_ambient 0.428 (-20) 40).
  - lra.
  - unfold valid_ambient; simpl. lra.
  - lra.
Defined.

Lemma h_coefficient_real_signs (amb : AmbientConditions) (D_h : R) :
  D_h <> 0 -> 0 <= rayleigh amb D_h -> 0 <= reynolds amb D_h ->
  h_coefficient amb D_h = Ok (PyFloat (h_formula amb D_h)).
Proof.
  intros HD HRa HRe. rewrite h_coefficient_stages. unfold h_formula_py.
  rewrite churchill_chu_py_real by assumption. cbn [bind].
  rewrite zukauskas_py_real by assumption. cbn [bind].
  rewrite power_mean3_py_real
    by (apply churchill_chu_pos || apply zukauskas_nonneg).
  cbn [bind]. rewrite pmul_float, pdiv_float by assumption. reflexivity.
Qed.

Lemma padd_complex_r (c : pynum) (a b : R) :
  exists x y, padd c (PyComplex a b) = PyComplex x y.
Proof. destruct c; do 2 eexists; reflexivity. Qed.

Lemma zukauskas_py_complex (Re : R) :
  Re < 0 -> exists x y, zukauskas_py Re = Ok (PyComplex x y).
Proof.
  intros HRe. unfold zukauskas_py, zukauskas_m.
  destruct (Rlt_dec Re 1e5) as [_|H]; [|lra].
  rewrite float_pow_neg;
    [|assumption|lra|apply (not_integral_between _ 0); lra].
  cbn [bind]. rewrite float_pow_pos by (unfold PR_AIR; lra). cbn [bind].
  rewrite pmul_float_complex, pmul_complex_float.
  do 2 eexists; reflexivity.
Qed.

Lemma h_coefficient_complex_reynolds (amb : AmbientConditions) (D_h : R) :
  reynolds amb D_h < 0 -> D_h <> 0 ->
  exists re im, h_coefficient amb D_h = Ok (PyComplex re im).
Proof.
  intros HRe HD. rewrite h_coefficient_stages. unfold h_formula_py.
  destruct (churchill_chu_py_total (rayleigh amb D_h)) as [a ->]. cbn [bind].
  destruct (zukauskas_py_complex _ HRe) as (x & y & ->). cbn [bind].
  unfold power_mean3_py. cbn [pow_int].
  destruct (pmul_complex_l x y (PyComplex x y)) as (x1 & y1 & ->).
  destruct (pmul_complex_l x y (PyComplex x1 y1)) as (x2 & y2 & ->).
  destruct (padd_complex_r (pmul a (pmul a a)) x2 y2) as (x3 & y3 & ->).
  cbn [ppow].
  destruct (complex_pow_total x3 y3 (1 / 3)) as (x4 & y4 & ->); [lra|].
  cbn [bind]. rewrite pmul_complex_float.
  rewrite pdiv_complex_float by assumption.
  do 2 eexists; reflexivity.
Qed.

Lemma rayleigh_sign (amb : AmbientConditions) (D_h : R) :
  D_h <> 0 -> (0 <= rayleigh amb D_h <-> 0 <= (T_air amb + 160) * D_h).
Proof.
  intros HD. unfold rayleigh, grashof.
  assert (Hk : 0 < 9.81 * (1 / 273.15) * (D_h * D_h / MU_AIR ^ 2) * PR_AIR).
  { apply Rmult_lt_0_compat; [|unfold PR_AIR; lra].
    apply Rmult_lt_0_compat; [lra|].
    apply Rdiv_lt_0_compat; [nra|apply pow_lt, MU_AIR_pos]. }
  replace (9.81 * (1 / 273.15) * (T_air amb - -160) * (D_h ^ 3 / MU_AIR ^ 2)
           * PR_AIR)
    with ((T_air amb + 160) * D_h
          * (9.81 * (1 / 273.15) * (D_h * D_h / MU_AIR ^ 2) * PR_AIR))
    by (unfold Rdiv; ring).
  split; intros H; nra.
Qed.

Lemma reynolds_sign (amb : AmbientConditions) (D_h : R) :
  0 <= reynolds amb D_h <-> 0 <= v_wind amb * D_h.
Proof.
  unfold reynolds, RHO_GNG. pose proof MU_AIR_pos as Hm.
  assert (Hi : 0 < / MU_AIR) by (apply Rinv_0_lt_compat; exact Hm).
  replace (1.0 * v_wind amb * D_h / MU_AIR)
    with (v_wind amb * D_h * / MU_AIR)
    by (replace 1.0 with 1 by lra; unfold Rdiv; ring).
  split; intros H; nra.
Qed.

Lemma h_coefficient_complex_signs (amb : AmbientConditions) (D_h : R) :
  D_h <> 0 ->
  (T_air amb + 160) * D_h < 0 \/ v_wind amb * D_h < 0 ->
  exists re im, h_coefficient amb D_h = Ok (PyComplex re im).
Proof.
  intros HD [H|H].
  - apply h_coefficient_complex; [|assumption].
    destruct (Rle_dec 0 (rayleigh amb D_h)) as [r|n]; [|lra].
    apply (rayleigh_sign amb D_h HD) in r. lra.
  - apply h_coefficient_complex_reynolds; [|assumption].
    destruct (Rle_dec 0 (reynolds amb D_h)) as [r|n]; [|lra].
    apply (reynolds_sign amb D_h) in r. lra.
Qed.

(** X5: which inputs keep the coefficient real.  For a diameter other than
    zero the call returns a float exactly when (T_air + 160) x D_h >= 0 and
    v_wind x D_h >= 0; with either product negative a power of a negative
    number makes the result a complex number. *)
Theorem h_coefficient_float_iff (amb : AmbientConditions) (D_h : R) :
  D_h <> 0 ->
  ((exists x, h_coefficient amb D_h = Ok (PyFloat x)) <->
   0 <= (T_air amb + 160) * D_h /\ 0 <= v_wind amb * D_h) /\
  ((exists re im, h_coefficient amb D_h = Ok (PyComplex re im)) <->
   (T_air amb + 160) * D_h < 0 \/ v_wind amb * D_h < 0).
Proof.
  intros HD.
  pose proof (rayleigh_sign amb D_h HD) as HRa.
  pose proof (reynolds_sign amb D_h) as HRe.
  assert (Hreal : 0 <= (T_air amb + 160) * D_h /\ 0 <= v_wind amb * D_h ->
                  exists x, h_coefficient amb D_h = Ok (PyFloat x)).
  { intros [H1 H2]. eexists.
    apply h_coefficient_real_signs; [assumption|tauto|tauto]. }
  assert (Hcpx : (T_air amb + 160) * D_h < 0 \/ v_wind amb * D_h < 0 ->
                 exists re im, h_coefficient amb D_h = Ok (PyComplex re im)).
  { apply h_coefficient_complex_signs; assumption. }
  split; split.
  - intros [x Ex].
    destruct (Rle_dec 0 ((T_air amb + 160) * D_h)) as [H1|H1];
      [destruct (Rle_dec 0 (v_wind amb * D_h)) as [H2|H2]|].
    + split; assumption.
    + destruct Hcpx as (re & im & E); [right; lra|congruence].
    + destruct Hcpx as (re & im & E); [left; lra|congruence].
  - exact Hreal.
  - intros (re & im & E).
    destruct (Rle_dec 0 ((T_air amb + 160) * D_h)) as [H1|H1]; [|left; lra].
    destruct (Rle_dec 0 (v_wind amb * D_h)) as [H2|H2]; [|right; lra].
    destruct Hreal as [x Ex]; [split; assumption|congruence].
  - exact Hcpx.
Qed.

Lemma h_coefficient_float_iff_witness :
  (exists x, h_coefficient default_ambient 0.428 = Ok (PyFloat x)) /\
  (exists re im,
     h_coefficient (mkAmbientConditions 15 (-1)) 0.428 = Ok (PyComplex re im)).
Proof.
  split.
  - apply (h_coefficient_float_iff default_ambient 0.428); simpl; lra.
  - apply (h_coefficient_float_iff (mkAmbientConditions 15 (-1)) 0.428);
      simpl; lra.
Defined.

(** ** Gasifier: further properties *)

Lemma capacity_steady_formula_factored (g : Gasifier) :
  capacity_steady_formula g =
  h_formula (ambient g) (finned_diameter_m (geom g))
  * (T_air (ambient g) + 160)
  * (total_exposed_area g * (3600 / (LATENT * 0.693))).
Proof.
  unfold capacity_steady_formula, total_exposed_area, LATENT. cbv zeta.
  field. lra.
Qed.

Lemma flow_factor_pos : 0 < 3600 / (LATENT * 0.693).
Proof. unfold LATENT. apply Rdiv_lt_0_compat; lra. Qed.

(** X6: with valid inputs in air not colder than -160 C the steady capacity
    is a float that is never negative; it is zero exactly at -160 C, where
    the driving temperature difference vanishes, and positive above. *)
Theorem capacity_steady_sign (g : Gasifier) :
  valid_gasifier g -> above_reference (ambient g) ->
  exists c, capacity g "steady" = Ok (PyFloat c) /\ 0 <= c /\
            (c = 0 <-> T_air (ambient g) = -160).
Proof.
  intros Hv HT. exists (capacity_steady_formula g).
  split; [apply capacity_steady_real; assumption|].
  rewrite capacity_steady_formula_factored.
  pose proof (h_formula_pos (ambient g) _ (finned_diameter_pos _ (proj1 Hv)))
    as Hh.
  pose proof (total_exposed_area_pos g Hv) as HA.
  pose proof flow_factor_pos as HF.
  set (h := h_formula (ambient g) (finned_diameter_m (geom g))) in *.
  set (k := total_exposed_area g * (3600 / (LATENT * 0.693))).
  assert (Hk : 0 < k) by (apply Rmult_lt_0_compat; assumption).
  assert (Hhk : 0 < h * k) by (apply Rmult_lt_0_compat; assumption).
  unfold above_reference in HT.
  replace (h * (T_air (ambient g) + 160) * k)
    with ((T_air (ambient g) + 160) * (h * k)) by ring.
  split; [apply Rmult_le_pos; lra|].
  split; intros H.
  - apply Rmult_integral in H. destruct H as [H|H]; lra.
  - rewrite H. ring.
Qed.

Lemma capacity_steady_sign_witness :
  exists c, capacity default_gasifier "steady" = Ok (PyFloat c) /\ 0 <= c /\
            (c = 0 <-> 15 = -160).
Proof.
  apply (capacity_steady_sign default_gasifier).
  - unfold valid_gasifier, valid_geometry, valid_module, valid_ambient; simpl.
    repeat split; lra || lia.
  - unfold above_reference; simpl. lra.
Defined.



(** X8: warmer air never lowers the steady capacity: for a valid bank and
    air temperatures not below -160 C the capacity is non-decreasing in the
    air temperature. *)
Theorem capacity_increasing_in_air_temperature (g : Gasifier) (T1 T2 : R) :
  valid_gasifier g -> -160 <= T1 <= T2 ->
  exists c1 c2,
    capacity (with_ambient g (with_T_air (ambient g) T1)) "steady"
    = Ok (PyFloat c1) /\
    capacity (with_ambient g (with_T_air (ambient g) T2)) "steady"
    = Ok (PyFloat c2) /\
    c1 <= c2.
Proof.
  intros Hv [HT1 HT12].
  set (g1 := with_ambient g (with_T_air (ambient g) T1)).
  set (g2 := with_ambient g (with_T_air (ambient g) T2)).
  assert (Hv1 : valid_gasifier g1) by exact Hv.
  assert (Hv2 : valid_gasifier g2) by exact Hv.
  exists (capacity_steady_formula g1), (capacity_steady_formula g2).
  split; [apply capacity_steady_real;
          [exact Hv1|unfold above_reference; simpl; lra]|].
  split; [apply capacity_steady_real;
          [exact Hv2|unfold above_reference; simpl; lra]|].
  rewrite !capacity_steady_formula_factored.
  change (total_exposed_area g1) with (total_exposed_area g).
  change (total_exposed_area g2) with (total_exposed_area g).
  pose proof (total_exposed_area_pos g Hv) as HA.
  pose proof flow_factor_pos as HF.
  assert (Hk : 0 < total_exposed_area g * (3600 / (LATENT * 0.693)))
    by (apply Rmult_lt_0_compat; assumption).
  apply Rmult_le_compat_r; [lra|].
  pose proof (finned_diameter_pos _ (proj1 Hv)) as HD.
  pose proof (h_formula_T_air_le (ambient g) _ T1 T2 HD (conj HT1 HT12)) as Hh.
  pose proof (h_formula_pos (with_T_air (ambient g) T1) _ HD) as Hh1.
  change (ambient g1) with (with_T_air (ambient g) T1).
  change (ambient g2) with (with_T_air (ambient g) T2).
  change (geom g1) with (geom g). change (geom g2) with (geom g).
  cbn [T_air with_T_air]. nra.
Qed.

Lemma capacity_increasing_in_air_temperature_witness :
  exists c1 c2,
    capacity (mkGasifier default_geom default_module 4600
                         (mkAmbientConditions (-20) 0.5)) "steady"
    = Ok (PyFloat c1) /\
    capacity (mkGasifier default_geom default_module 4600
                         (mkAmbientConditions 40 0.5)) "steady"
    = Ok (PyFloat c2) /\
    c1 <= c2.
Proof.
  apply (capacity_increasing_in_air_temperature default_gasifier (-20) 40).
  - unfold valid_gasifier, valid_geometry, valid_module, valid_ambient; simpl.
    repeat split; lra || lia.
  - lra.
Defined.

(** X9: [capacity] never rejects a mode: every string other than the ASCII
    ["cold-start"] is treated as the steady mode, the spelling of the
    method's own docstring (with non-breaking hyphens) included. *)
Theorem capacity_unknown_mode_is_steady (g : Gasifier) (mode : string) :
  mode <> "cold-start"%string -> capacity g mode = capacity g "steady".
Proof.
  intros Hm. unfold capacity.
  apply String.eqb_neq in Hm. rewrite Hm.
  change (String.eqb "steady" "cold-start") with false. reflexivity.
Qed.

Lemma capacity_unknown_mode_is_steady_witness :
  capacity default_gasifier "cold‑start" = capacity default_gasifier "steady".
Proof.
  apply (capacity_unknown_mode_is_steady default_gasifier "cold‑start").
  intros H. discriminate H.
Defined.

Lemma round_half_even_error (x : R) :
  Rabs (IZR (round_half_even x) - x) <= 1 / 2.
Proof.
  pose proof (base_fp x) as [Hf0 Hf1].
  pose proof (Rplus_Int_part_frac_part x) as Hx.
  unfold round_half_even.
  destruct (Rlt_dec (frac_part x) (1 / 2)) as [Hlo|Hlo].
  - rewrite Rabs_left1; lra.
  - destruct (Rlt_dec (1 / 2) (frac_part x)) as [Hhi|Hhi].
    + rewrite plus_IZR. rewrite Rabs_right; lra.
    + assert (Hhalf : frac_part x = 1 / 2) by lra.
      destruct (Z.even (Int_part x)).
      * rewrite Rabs_left1; lra.
      * rewrite plus_IZR. rewrite Rabs_right; lra.
Qed.

Lemma py_round_digits_error (x r : R) (n : nat) :
  py_round_digits (PyFloat x) n = Ok r -> Rabs (r - x) <= 1 / 2 / 10 ^ n.
Proof.
  cbn [py_round_digits]. intros H. injection H as <-.
  assert (Hp : 0 < 10 ^ n) by (apply pow_lt; lra).
  pose proof (round_half_even_error (x * 10 ^ n)) as He.
  replace (IZR (round_half_even (x * 10 ^ n)) / 10 ^ n - x)
    with ((IZR (round_half_even (x * 10 ^ n)) - x * 10 ^ n) / 10 ^ n)
    by (field; lra).
  unfold Rdiv at 1. rewrite Rabs_mult, (Rabs_right (/ 10 ^ n)).
  - unfold Rdiv. apply Rmult_le_compat_r; [|exact He].
    left. apply Rinv_0_lt_compat. exact Hp.
  - left. apply Rinv_0_lt_compat. exact Hp.
Qed.

Lemma py_round_float_inv (a : pynum) (z : Z) :
  py_round a = Ok z -> exists x, a = PyFloat x /\ z = round_half_even x.
Proof.
  destruct a as [x|re im]; cbn [py_round]; intros H; [|discriminate].
  injection H as <-. exists x. split; reflexivity.
Qed.

Lemma py_round_digits_float_inv (a : pynum) (n : nat) (r : R) :
  py_round_digits a n = Ok r -> exists x, a = PyFloat x.
Proof.
  destruct a as [x|re im]; cbn [py_round_digits]; intros H; [|discriminate].
  exists x. reflexivity.
Qed.

(** X13: a summary that is returned agrees with the methods it calls: the
    tube count is tubes_x x tubes_y, the capacity is the steady capacity
    within half a unit, the area is the exposed area of the bank within
    0.05 m2 and the time constant is [thermal_time_constant] within 0.005 h;
    capacity and time constant are then floats. *)
Theorem summary_agrees_with_methods (g : Gasifier) (s : Summary) :
  summary g = Ok s ->
  exists c tau,
    capacity g "steady" = Ok (PyFloat c) /\
    thermal_time_constant g = Ok (PyFloat tau) /\
    s_n_tubes s = (tubes_x (module g) * tubes_y (module g))%Z /\
    Rabs (IZR (s_capacity_Nm3_h s) - c) <= 1 / 2 /\
    Rabs (s_area_total_m2 s - total_exposed_area g) <= 0.05 /\
    Rabs (s_tau_h s - tau) <= 0.005.
Proof.
  unfold summary, footprint_mm. cbv zeta. intros H.
  apply bind_Ok_inv in H. destruct H as (area & Earea & H).
  apply bind_Ok_inv in H. destruct H as (c & Ec & H).
  apply bind_Ok_inv in H. destruct H as (cap & Ecap & H).
  cbn [py_round bind] in H.
  apply bind_Ok_inv in H. destruct H as (tau & Etau & H).
  apply bind_Ok_inv in H. destruct H as (tau2 & Etau2 & H).
  injection H as <-. cbn [s_n_tubes s_capacity_Nm3_h s_area_total_m2 s_tau_h].
  destruct (py_round_float_inv _ _ Ecap) as (x & -> & ->).
  destruct (py_round_digits_float_inv _ _ _ Etau2) as (t & ->).
  exists x, t. split; [exact Ec|]. split; [exact Etau|].
  split; [reflexivity|]. split; [apply round_half_even_error|].
  split.
  - pose proof (py_round_digits_error _ _ _ Earea) as He.
    unfold total_exposed_area. simpl in He. lra.
  - pose proof (py_round_digits_error _ _ _ Etau2) as He.
    simpl in He. lra.
Qed.

Lemma summary_agrees_with_methods_witness :
  exists s c tau,
    summary default_gasifier = Ok s /\
    capacity default_gasifier "steady" = Ok (PyFloat c) /\
    thermal_time_constant default_gasifier = Ok (PyFloat tau) /\
    s_n_tubes s = 72%Z /\
    Rabs (IZR (s_capacity_Nm3_h s) - c) <= 1 / 2 /\
    Rabs (s_area_total_m2 s - total_exposed_area default_gasifier) <= 0.05 /\
    Rabs (s_tau_h s - tau) <= 0.005.
Proof.
  destruct (summary_returns default_gasifier) as [s Hs].
  - unfold valid_gasifier, valid_geometry, valid_module, valid_ambient; simpl.
    repeat split; lra || lia.
  - unfold above_reference; simpl. lra.
  - destruct (summary_agrees_with_methods default_gasifier s Hs)
      as (c & tau & H).
    exists s, c, tau. split; [exact Hs|exact H].
Defined.

(** X10: a tube whose finned diameter is zero makes every method of the
    bank that needs the coefficient raise [ZeroDivisionError]: [capacity] in
    any mode, [thermal_time_constant] and [summary]. *)
Theorem zero_diameter_raises (g : Gasifier) (mode : string) :
  tube_od_mm (geom g) + 2 * fin_height_mm (geom g) = 0 ->
  capacity g mode = Raise ZeroDivisionError /\
  thermal_time_constant g = Raise ZeroDivisionError /\
  summary g = Raise ZeroDivisionError.
Proof.
  intros HD.
  assert (Hc : forall m, capacity g m = Raise ZeroDivisionError).
  { intros m. unfold capacity. rewrite HD.
    replace (0 / 1000) with 0 by lra.
    rewrite h_coefficient_zero_diameter. reflexivity. }
  split; [apply Hc|]. split.
  - unfold thermal_time_constant. rewrite HD.
    replace (0 / 1000) with 0 by lra.
    rewrite h_coefficient_zero_diameter. reflexivity.
  - unfold summary, footprint_mm. cbv zeta. cbn [py_round_digits bind].
    rewrite Hc. reflexivity.
Qed.

Lemma zero_diameter_raises_witness :
  let g := mkGasifier (mkFinTubeGeometry 0 0 12 0.85) default_module 4600
                      default_ambient in
  capacity g "steady" = Raise ZeroDivisionError /\
  thermal_time_constant g = Raise ZeroDivisionError /\
  summary g = Raise ZeroDivisionError.
Proof.
  cbv zeta.
  apply (zero_diameter_raises
           (mkGasifier (mkFinTubeGeometry 0 0 12 0.85) default_module 4600
                       default_ambient) "steady").
  simpl. lra.
Defined.

(** X11: a bank without tubes, or with tubes of length zero, has a steady
    capacity of 0, but its conductance is zero too: [thermal_time_constant]
    raises [ZeroDivisionError], and with it the cold-start mode of
    [capacity] and [summary]. *)
Theorem empty_bank_raises (g : Gasifier) :
  valid_geometry (geom g) -> valid_ambient (ambient g) ->
  above_reference (ambient g) ->
  n_tubes (module g) = 0%Z \/ tube_length_mm g = 0 ->
  capacity g "steady" = Ok (PyFloat 0) /\
  capacity g "cold-start" = Raise ZeroDivisionError /\
  thermal_time_constant g = Raise ZeroDivisionError /\
  summary g = Raise ZeroDivisionError.
Proof.
  intros Hg Ha HT Hz.
  assert (Hzero : tube_length_mm g / 1000 * IZR (n_tubes (module g)) = 0).
  { destruct Hz as [-> | ->]; lra. }
  assert (Eh : h_coefficient (ambient g) (finned_diameter_m (geom g))
               = Ok (PyFloat (h_formula (ambient g) (finned_diameter_m (geom g))))).
  { apply h_coefficient_real; [apply finned_diameter_pos|..]; assumption. }
  assert (Ettc : thermal_time_constant g = Raise ZeroDivisionError).
  { unfold thermal_time_constant. fold (finned_diameter_m (geom g)).
    rewrite Eh. cbn [bind]. rewrite !pmul_float.
    match goal with |- context [pdiv _ (PyFloat ?d)] =>
      replace d with 0 by (rewrite Rmult_assoc, Hzero; ring) end.
    rewrite pdiv_zero. reflexivity. }
  assert (Ecap : capacity g "steady" = Ok (PyFloat 0)
                 /\ capacity g "cold-start" = Raise ZeroDivisionError).
  { unfold capacity. fold (finned_diameter_m (geom g)).
    rewrite Eh. cbn [bind]. rewrite !pmul_float.
    rewrite pdiv_float by (unfold LATENT, CP_LNG; lra). cbn [bind].
    rewrite !pmul_float, pdiv_float by lra. cbn [bind].
    change (String.eqb "steady" "cold-start") with false.
    change (String.eqb "cold-start" "cold-start") with true. cbv iota.
    rewrite Ettc. cbn [bind]. split; [|reflexivity].
    do 2 f_equal.
    match goal with |- ?l = 0 =>
      replace l with
        (h_formula (ambient g) (finned_diameter_m (geom g))
         * area_per_meter (geom g) * (T_air (ambient g) - -160)
         / (LATENT + CP_LNG * (-160 - -160)) * 3600 / 0.693
         * (tube_length_mm g / 1000 * IZR (n_tubes (module g))))
        by (unfold LATENT, CP_LNG; field; lra) end.
    rewrite Hzero. ring. }
  destruct Ecap as [Es Ec].
  split; [exact Es|]. split; [exact Ec|]. split; [exact Ettc|].
  unfold summary, footprint_mm. cbv zeta. cbn [py_round_digits bind].
  rewrite Es. cbn [py_round bind]. rewrite Ettc. reflexivity.
Qed.

Lemma empty_bank_raises_witness :
  let g := mkGasifier default_geom (mkModuleConfig 0 8 215 300) 4600
                      default_ambient in
  capacity g "steady" = Ok (PyFloat 0) /\
  capacity g "cold-start" = Raise ZeroDivisionError /\
  thermal_time_constant g = Raise ZeroDivisionError /\
  summary g = Raise ZeroDivisionError.
Proof.
  cbv zeta.
  apply (empty_bank_raises
           (mkGasifier default_geom (mkModuleConfig 0 8 215 300) 4600
                       default_ambient)).
  - unfold valid_geometry; simpl. repeat split; lra || lia.
  - unfold valid_ambient; simpl. lra.
  - unfold above_reference; simpl. lra.
  - left. reflexivity.
Defined.

Lemma capacity_complex (g : Gasifier) (re im : R) :
  h_coefficient (ambient g) (finned_diameter_m (geom g)) = Ok (PyComplex re im) ->
  exists x y, capacity g "steady" = Ok (PyComplex x y).
Proof.
  intros Eh. unfold capacity. fold (finned_diameter_m (geom g)).
  rewrite Eh. cbn [bind]. rewrite !pmul_complex_float.
  rewrite pdiv_complex_float by (unfold LATENT, CP_LNG; lra). cbn [bind].
  rewrite !pmul_complex_float, pdiv_complex_float by lra. cbn [bind].
  change (String.eqb "steady" "cold-start") with false. cbv iota.
  do 2 eexists; reflexivity.
Qed.

(** X12: nothing in the bank guards the air state.  On a valid tube, air
    colder than -160 C or a negative wind speed makes the steady capacity a
    complex number, returned without error, and [summary] then fails with
    [TypeError] when it rounds that capacity. *)
Theorem unphysical_air_breaks_summary (g : Gasifier) :
  valid_geometry (geom g) ->
  T_air (ambient g) < -160 \/ v_wind (ambient g) < 0 ->
  (exists x y, capacity g "steady" = Ok (PyComplex x y)) /\
  summary g = Raise TypeError.
Proof.
  intros Hg Hbad.
  pose proof (finned_diameter_pos _ Hg) as HD.
  assert (HD0 : finned_diameter_m (geom g) <> 0) by lra.
  assert (Hh : exists re im,
             h_coefficient (ambient g) (finned_diameter_m (geom g))
             = Ok (PyComplex re im)).
  { apply (h_coefficient_complex_signs (ambient g) _ HD0).
    destruct Hbad as [H|H]; [left|right]; nra. }
  destruct Hh as (re & im & Eh).
  destruct (capacity_complex g re im Eh) as (x & y & Ec).
  split; [exists x, y; exact Ec|].
  unfold summary, footprint_mm. cbv zeta. cbn [py_round_digits bind].
  rewrite Ec. reflexivity.
Qed.

Lemma unphysical_air_breaks_summary_witness :
  let g := mkGasifier default_geom default_module 4600
                      (mkAmbientConditions (-200) 0.5) in
  (exists x y, capacity g "steady" = Ok (PyComplex x y)) /\
  summary g = Raise TypeError.
Proof.
  cbv zeta.
  apply (unphysical_air_breaks_summary
           (mkGasifier default_geom default_module 4600
                       (mkAmbientConditions (-200) 0.5))).
  - unfold valid_geometry; simpl. repeat split; lra || lia.
  - left. simpl. lra.
Defined.

Lemma tau_formula_inverse (g : Gasifier) :
  valid_gasifier g ->
  tau_formula g = 1.35 / h_formula (ambient g) (finned_diameter_m (geom g)).
Proof.
  intros Hv. pose proof Hv as (Hg & Hm & _ & HL).
  pose proof (area_per_meter_pos _ Hg). pose proof (n_tubes_pos _ Hm).
  pose proof (h_formula_pos (ambient g) _ (finned_diameter_pos _ Hg)).
  unfold tau_formula, thermal_capacitance, aluminium_mass, total_exposed_area.
  replace 0.002 with (2 / 1000) by lra. replace 1.35 with (135 / 100) by lra.
  field. repeat split; lra.
Qed.

(** X14: with valid inputs above the reference temperature the thermal time
    constant is positive, wind never lengthens it beyond its still-air
    value, and the still-air value is at most
    1.35 x D_h / (0.825^2 x k_air) hours. *)
Theorem time_constant_bounded (g : Gasifier) :
  valid_gasifier g -> above_reference (ambient g) ->
  exists tau tau0,
    thermal_time_constant g = Ok (PyFloat tau) /\
    thermal_time_constant (with_ambient g (with_wind (ambient g) 0))
    = Ok (PyFloat tau0) /\
    0 < tau <= tau0 /\
    tau0 <= 1.35 * finned_diameter_m (geom g) / (0.825 ^ 2 * K_AIR).
Proof.
  intros Hv HT.
  assert (Hv0 : valid_gasifier (with_ambient g (with_wind (ambient g) 0))).
  { destruct Hv as (Hg & Hm & Ha & HL).
    split; [exact Hg|]. split; [exact Hm|]. split; [|exact HL].
    unfold valid_ambient; simpl. lra. }
  set (g0 := with_ambient g (with_wind (ambient g) 0)) in *.
  exists (tau_formula g), (tau_formula g0).
  split; [apply thermal_time_constant_real; assumption|].
  split; [apply thermal_time_constant_real; [exact Hv0|exact HT]|].
  rewrite (tau_formula_inverse g Hv), (tau_formula_inverse g0 Hv0).
  change (geom g0) with (geom g).
  change (ambient g0) with (with_wind (ambient g) 0).
  rewrite (h_formula_still_air (with_wind (ambient g) 0)) by reflexivity.
  change (h_natural (with_wind (ambient g) 0) (finned_diameter_m (geom g)))
    with (h_natural (ambient g) (finned_diameter_m (geom g))).
  pose proof (finned_diameter_pos _ (proj1 Hv)) as HD.
  destruct (h_natural_bounds (ambient g) _ HD) as [[Hmin Hlo] Hhi].
  set (D := finned_diameter_m (geom g)) in *.
  set (h := h_formula (ambient g) D) in *.
  set (h0 := h_natural (ambient g) D) in *.
  assert (Hh0 : 0 < h0) by lra. assert (Hh : 0 < h) by lra.
  assert (HK : 0 < 0.825 ^ 2 * K_AIR) by (unfold K_AIR; lra).
  split; [split|].
  - apply Rdiv_lt_0_compat; lra.
  - unfold Rdiv. apply Rmult_le_compat_l; [lra|].
    apply Rinv_le_contravar; assumption.
  - replace (1.35 * D / (0.825 ^ 2 * K_AIR))
      with (1.35 / (0.825 ^ 2 * K_AIR / D)) by (field; lra).
    unfold Rdiv at 1 3. apply Rmult_le_compat_l; [lra|].
    apply Rinv_le_contravar; assumption.
Qed.

Lemma time_constant_bounded_witness :
  exists tau tau0,
    thermal_time_constant default_gasifier = Ok (PyFloat tau) /\
    thermal_time_constant
      (mkGasifier default_geom default_module 4600 (mkAmbientConditions 15 0))
    = Ok (PyFloat tau0) /\
    0 < tau <= tau0 /\
    tau0 <= 1.35 * finned_diameter_m default_geom / (0.825 ^ 2 * K_AIR).
Proof.
  apply (time_constant_bounded default_gasifier).
  - unfold valid_gasifier, valid_geometry, valid_module, valid_ambient; simpl.
    repeat split; lra || lia.
  - unfold above_reference; simpl. lra.
Defined.

(** ** FinTubeGeometry and ModuleConfig: further properties *)

(** X15: on a valid geometry fins never take area away: the area per metre
    is at least the bare-tube circumference, and it equals it exactly when
    there is no fin or the fins have height zero. *)
Theorem area_per_meter_at_least_bare (g : FinTubeGeometry) :
  valid_geometry g ->
  PI * (tube_od_mm g / 1000) <= area_per_meter g /\
  (area_per_meter g = PI * (tube_od_mm g / 1000) <->
   fins_per_tube g = 0%Z \/ fin_height_mm g = 0).
Proof.
  intros (Hd & Hh & Hn & He & _). rewrite area_per_meter_factored.
  pose proof PI_RGT_0 as Hpi. apply IZR_le in Hn.
  assert (Hc : 0 < PI * (tube_od_mm g / 1000))
    by (apply Rmult_lt_0_compat; lra).
  set (c := PI * (tube_od_mm g / 1000)) in *.
  set (n := IZR (fins_per_tube g)) in *.
  assert (Hen : 0 <= fin_efficiency g * n) by (apply Rmult_le_pos; lra).
  assert (Hx : 0 <= fin_efficiency g * n * (2 * fin_height_mm g / 1000))
    by (apply Rmult_le_pos; lra).
  split; [nra|]. split.
  - intros E.
    assert (Hz : fin_efficiency g * n * (2 * fin_height_mm g / 1000) = 0) by nra.
    apply Rmult_integral in Hz. destruct Hz as [Hz|Hz]; [left|right; lra].
    apply Rmult_integral in Hz. destruct Hz as [Hz|Hz]; [lra|].
    apply eq_IZR. exact Hz.
  - intros [E|E].
    + unfold n. rewrite E. ring.
    + rewrite E. unfold Rdiv. ring.
Qed.

Lemma area_per_meter_at_least_bare_witness :
  PI * (28 / 1000) <= area_per_meter default_geom /\
  (area_per_meter default_geom = PI * (28 / 1000) <-> 12%Z = 0%Z \/ 200 = 0).
Proof.
  apply (area_per_meter_at_least_bare default_geom).
  unfold valid_geometry; simpl. repeat split; lra || lia.
Defined.

(** X16: for a valid layout neither side of the footprint is smaller than
    the diameter it is given; a single row or column is exactly one
    diameter wide, and one more row or column adds exactly one spacing. *)
Theorem footprint_grows_by_spacing (m : ModuleConfig) (d : R) :
  valid_module m ->
  d <= fst (footprint_mm m d) /\ d <= snd (footprint_mm m d) /\
  (tubes_x m = 1%Z -> fst (footprint_mm m d) = d) /\
  (tubes_y m = 1%Z -> snd (footprint_mm m d) = d) /\
  fst (footprint_mm (mkModuleConfig (tubes_x m + 1) (tubes_y m)
                       (spacing_x_mm m) (spacing_y_mm m)) d)
  = fst (footprint_mm m d) + spacing_x_mm m /\
  snd (footprint_mm (mkModuleConfig (tubes_x m) (tubes_y m + 1)
                       (spacing_x_mm m) (spacing_y_mm m)) d)
  = snd (footprint_mm m d) + spacing_y_mm m.
Proof.
  intros (Hx & Hy & Hsx & Hsy). unfold footprint_mm. cbn [fst snd tubes_x
    tubes_y spacing_x_mm spacing_y_mm].
  rewrite !minus_IZR, !plus_IZR. apply IZR_le in Hx, Hy.
  repeat split.
  - nra.
  - nra.
  - intros ->. lra.
  - intros ->. lra.
  - ring.
  - ring.
Qed.

Lemma footprint_grows_by_spacing_witness :
  428 <= fst (footprint_mm default_module 428) /\
  fst (footprint_mm (mkModuleConfig 10 8 215 300) 428)
  = fst (footprint_mm default_module 428) + 215.
Proof.
  assert (V : valid_module default_module).
  { unfold valid_module; simpl. repeat split; lra || lia. }
  destruct (footprint_grows_by_spacing default_module 428 V)
    as (H1 & _ & _ & _ & H5 & _).
  split; [exact H1|exact H5].
Defined.

(** ** The front end *)

Lemma widget_ranges_valid (i : AppInputs) :
  widget_ranges i ->
  valid_gasifier (app_single i) /\ above_reference (ambient (app_single i)).
Proof.
  intros ([Hod _] & [Hfh _] & [Hn _] & [He0 He1] & [Hx _] & [Hy _] & [Hsx _]
          & [Hsy _] & _ & _ & [HL _] & [HT _] & [Hw _]).
  apply IZR_le in Hod, Hfh, Hsx, Hsy, HL, HT.
  unfold valid_gasifier, valid_geometry, valid_module, valid_ambient,
    above_reference; cbn.
  repeat split; try lra; lia.
Qed.

Lemma footprint_side_integer (a s d h : Z) :
  IZR (a - 1) * IZR s + (IZR d + 2 * IZR h) = IZR ((a - 1) * s + (d + 2 * h)).
Proof. rewrite !plus_IZR, !mult_IZR. reflexivity. Qed.

(** X17: the script cannot fail on what its own widgets deliver.  Every
    input inside the widget ranges is a valid bank in air above the
    reference temperature, the steady capacity is a float, [summary]
    returns, and the report is: the module count and the connection as
    given, tubes_x x tubes_y x modules, the capacity (times the module count
    in parallel only) rounded, the summary's area (times the module count
    in parallel only) rounded again to one decimal, the summary's time
    constant, and the footprint as exact integers
    (tubes - 1) x spacing + tube_od + 2 x fin_height. *)
Theorem app_returns_in_widget_ranges (i : AppInputs) :
  widget_ranges i ->
  valid_gasifier (app_single i) /\
  above_reference (ambient (app_single i)) /\
  exists c s,
    capacity (app_single i) "steady" = Ok (PyFloat c) /\
    summary (app_single i) = Ok s /\
    let parallel := String.eqb (in_connection i) "Paralelo" in
    let n := IZR (in_n_modules i) in
    app i =
    Ok (mkAppReport
          (mkAppRow (in_n_modules i) (in_connection i)
             (in_tubes_x i * in_tubes_y i * in_n_modules i)
             (round_half_even (if parallel then c * n else c))
             (IZR (round_half_even
                     ((if parallel then s_area_total_m2 s * n
                       else s_area_total_m2 s) * 10 ^ 1)) / 10 ^ 1)
             (s_tau_h s))
          ((in_tubes_x i - 1) * in_spacing_x i
           + (in_tube_od i + 2 * in_fin_height i))
          ((in_tubes_y i - 1) * in_spacing_y i
           + (in_tube_od i + 2 * in_fin_height i))
          (in_tube_length i)).
Proof.
  intros Hr. destruct (widget_ranges_valid i Hr) as [Hv HT].
  split; [exact Hv|]. split; [exact HT|].
  destruct (summary_returns _ Hv HT) as [s Es].
  exists (capacity_steady_formula (app_single i)), s.
  pose proof (capacity_steady_real _ Hv HT) as Ec.
  split; [exact Ec|]. split; [exact Es|].
  cbv zeta. unfold app. cbv zeta. rewrite Ec. cbn [bind].
  unfold footprint_mm. cbv zeta.
  cbn [app_mod app_geom tubes_x tubes_y spacing_x_mm spacing_y_mm tube_od_mm
       fin_height_mm n_tubes].
  rewrite !footprint_side_integer.
  destruct (String.eqb (in_connection i) "Paralelo").
  - rewrite pmul_float. cbn [py_round bind]. rewrite Es.
    cbn [py_round_digits bind]. rewrite !round_half_even_IZR. reflexivity.
  - cbn [py_round bind]. rewrite Es.
    cbn [py_round_digits bind]. rewrite !round_half_even_IZR. reflexivity.
Qed.

Lemma app_returns_in_widget_ranges_witness :
  exists c s,
    capacity (app_single default_inputs) "steady" = Ok (PyFloat c) /\
    summary (app_single default_inputs) = Ok s /\
    app default_inputs =
    Ok (mkAppReport
          (mkAppRow 1 "Paralelo" 72
             (round_half_even (c * 1))
             (IZR (round_half_even (s_area_total_m2 s * 1 * 10 ^ 1)) / 10 ^ 1)
             (s_tau_h s))
          2148 2528 4600).
Proof.
  assert (Hr : widget_ranges default_inputs).
  { unfold widget_ranges; simpl.
    repeat split; try lia; try lra. left. reflexivity. }
  destruct (app_returns_in_widget_ranges default_inputs Hr)
    as (_ & _ & c & s & Ec & Es & Ea).
  exists c, s. split; [exact Ec|]. split; [exact Es|]. exact Ea.
Defined.

Lemma pmul_one (a : pynum) : pmul a (PyFloat 1) = a.
Proof. destruct a; unfold pmul; simpl; f_equal; ring. Qed.

Lemma same_performance_bind {A : Type} (r : result A)
    (k1 k2 : A -> result AppReport) :
  (forall a, r = Ok a -> same_performance (k1 a) (k2 a)) ->
  same_performance (bind r k1) (bind r k2).
Proof.
  intros H. destruct r as [a|e]; cbn [bind]; [apply H|]; reflexivity.
Qed.

(** X18: with a single module the connection makes no difference: for any
    inputs whatever, the parallel and the series run fail alike or show the
    same capacity, area, time constant and footprint. *)
Theorem app_single_module_connection_irrelevant (i : AppInputs) :
  in_n_modules i = 1%Z ->
  same_performance (app (with_connection i "Paralelo"))
                   (app (with_connection i "Serie")).
Proof.
  intros Hn. unfold app. cbv zeta.
  change (app_single (with_connection i "Paralelo")) with (app_single i).
  change (app_single (with_connection i "Serie")) with (app_single i).
  change (app_geom (with_connection i "Paralelo")) with (app_geom i).
  change (app_geom (with_connection i "Serie")) with (app_geom i).
  change (app_mod (with_connection i "Paralelo")) with (app_mod i).
  change (app_mod (with_connection i "Serie")) with (app_mod i).
  cbn [with_connection in_connection in_n_modules in_tube_length].
  change (String.eqb "Paralelo" "Paralelo") with true.
  change (String.eqb "Serie" "Paralelo") with false. cbv iota.
  rewrite Hn.
  apply same_performance_bind; intros c _. rewrite pmul_one.
  apply same_performance_bind; intros cap _.
  apply same_performance_bind; intros s _.
  replace (s_area_total_m2 s * 1) with (s_area_total_m2 s) by ring.
  apply same_performance_bind; intros area _.
  apply same_performance_bind; intros s' _.
  unfold footprint_mm. cbv zeta.
  apply same_performance_bind; intros rx _.
  apply same_performance_bind; intros ry _.
  cbn. repeat split; reflexivity.
Qed.

Lemma app_single_module_connection_irrelevant_witness :
  same_performance (app default_inputs)
                   (app (with_connection default_inputs "Serie")).
Proof.
  apply (app_single_module_connection_irrelevant default_inputs).
  reflexivity.
Defined.

(** X19: in series (any connection other than "Paralelo") the module count
    changes nothing of the performance shown: capacity, area, time constant
    and footprint are those of one module; only the module and tube totals
    follow the count. *)
Theorem app_series_ignores_module_count (i : AppInputs) (n' : Z) :
  in_connection i <> "Paralelo"%string ->
  same_performance (app i) (app (with_n_modules i n')) /\
  (forall r', app (with_n_modules i n') = Ok r' ->
     row_modulos (app_row r') = n' /\
     row_tubos_totales (app_row r')
     = (in_tubes_x i * in_tubes_y i * n')%Z).
Proof.
  intros Hc. apply String.eqb_neq in Hc. split.
  - unfold app. cbv zeta.
    change (app_single (with_n_modules i n')) with (app_single i).
    change (app_geom (with_n_modules i n')) with (app_geom i).
    change (app_mod (with_n_modules i n')) with (app_mod i).
    cbn [with_n_modules in_connection in_n_modules in_tube_length].
    rewrite Hc.
    apply same_performance_bind; intros c _.
    apply same_performance_bind; intros cap _.
    apply same_performance_bind; intros s _.
    apply same_performance_bind; intros area _.
    apply same_performance_bind; intros s' _.
    unfold footprint_mm. cbv zeta.
    apply same_performance_bind; intros rx _.
    apply same_performance_bind; intros ry _.
    cbn. repeat split; reflexivity.
  - intros r' H. unfold app in H. cbv zeta in H.
    unfold footprint_mm in H. cbv zeta in H.
    do 7 (apply bind_Ok_inv in H; destruct H as (? & _ & H)).
    injection H as <-. cbn. split; reflexivity.
Qed.

Lemma app_series_ignores_module_count_witness :
  same_performance (app (with_connection default_inputs "Serie"))
                   (app (with_n_modules
                           (with_connection default_inputs "Serie") 4)).
Proof.
  apply (app_series_ignores_module_count
           (with_connection default_inputs "Serie") 4).
  intros H. discriminate H.
Defined.

(** ** Fins and capacity *)

(** X20: more fins give more capacity.  For a valid bank in air warmer than
    -160 C whose fins have a positive height, raising the fin count raises
    the steady capacity strictly: the coefficient does not depend on the
    fin count and the area grows with it. *)
Theorem capacity_increasing_in_fin_count (g : Gasifier) (n' : Z) :
  valid_gasifier g -> -160 < T_air (ambient g) ->
  0 < fin_height_mm (geom g) -> (fins_per_tube (geom g) < n')%Z ->
  exists c c',
    capacity g "steady" = Ok (PyFloat c) /\
    capacity (with_geom g (with_fins (geom g) n')) "steady" = Ok (PyFloat c') /\
    c < c'.
Proof.
  intros Hv HT Hh Hn.
  set (g' := with_geom g (with_fins (geom g) n')).
  assert (Hv' : valid_gasifier g').
  { destruct Hv as ((Hd & Hfh & Hf & He) & Hm & Ha & HL).
    split; [|split; [exact Hm|split; [exact Ha|exact HL]]].
    unfold valid_geometry; cbn. repeat split; try lra; try tauto. lia. }
  exists (capacity_steady_formula g), (capacity_steady_formula g').
  split; [apply capacity_steady_real;
          [exact Hv|unfold above_reference; lra]|].
  split; [apply capacity_steady_real;
          [exact Hv'|unfold above_reference; cbn; lra]|].
  rewrite !capacity_steady_formula_factored.
  change (ambient g') with (ambient g).
  change (finned_diameter_m (geom g')) with (finned_diameter_m (geom g)).
  pose proof (h_formula_pos (ambient g) _ (finned_diameter_pos _ (proj1 Hv)))
    as Hpos.
  pose proof flow_factor_pos as HF.
  assert (HhT : 0 < h_formula (ambient g) (finned_diameter_m (geom g))
                    * (T_air (ambient g) + 160))
    by (apply Rmult_lt_0_compat; lra).
  apply Rmult_lt_compat_l; [exact HhT|].
  apply Rmult_lt_compat_r; [exact HF|].
  unfold total_exposed_area.
  change (tube_length_mm g') with (tube_length_mm g).
  change (module g') with (module g).
  change (geom g') with (with_fins (geom g) n').
  destruct Hv as ((Hd & Hfh & Hf & He & _) & Hm & Ha & HL).
  pose proof (n_tubes_pos _ Hm) as Hnt.
  assert (HLn : 0 < tube_length_mm g / 1000 * IZR (n_tubes (module g)))
    by (apply Rmult_lt_0_compat; lra).
  rewrite !Rmult_assoc. apply Rmult_lt_compat_r; [exact HLn|].
  rewrite !area_per_meter_factored. cbn [with_fins tube_od_mm fin_height_mm
    fins_per_tube fin_efficiency].
  pose proof PI_RGT_0 as Hpi.
  assert (Hc : 0 < PI * (tube_od_mm (geom g) / 1000))
    by (apply Rmult_lt_0_compat; lra).
  apply Rmult_lt_compat_l; [exact Hc|].
  apply IZR_lt in Hn.
  assert (0 < fin_efficiency (geom g) * (2 * fin_height_mm (geom g) / 1000))
    by (apply Rmult_lt_0_compat; lra).
  nra.
Qed.

Lemma capacity_increasing_in_fin_count_witness :
  exists c c',
    capacity default_gasifier "steady" = Ok (PyFloat c) /\
    capacity (mkGasifier (mkFinTubeGeometry 28 200 16 0.85) default_module
                         4600 default_ambient) "steady" = Ok (PyFloat c') /\
    c < c'.
Proof.
  apply (capacity_increasing_in_fin_count default_gasifier 16).
  - unfold valid_gasifier, valid_geometry, valid_module, valid_ambient; simpl.
    repeat split; lra || lia.
  - simpl. lra.
  - simpl. lra.
  - simpl. lia.
Defined.
